(** * Tomate StatusNotifierItem plugin: the tray item, its menu and the plugin

    A shallow embedding of [data/plugins/status_notifier_item_plugin.py].

    The three classes of the file are three modules below, each with the
    state of its instances as a record and its methods as computations in a
    small monad [M] that threads the instance, may raise a Python exception
    and records, in order, what the method sent out: the D-Bus signals it
    emitted and the calls it made on the window (the [view]). *)

From Stdlib Require Import ZArith QArith Qabs Floats.
From stdpp Require Import base option list gmap strings pretty.

Local Open Scope Z_scope.
Local Open Scope string_scope.

(** ** Python values *)

(** The three functions the source creates: the two bound "clicked" actions
    of [DbusMenu.__init__] and the default of [DbusMenu.Event]. *)
Inductive callable :=
| lambda_view_show   (* lambda: view.show() *)
| lambda_view_hide   (* lambda: view.hide() *)
| lambda_None.       (* lambda: None *)

(** The values stored in the dictionaries of the file. *)
#[local] Set Warnings "-register-all".
Inductive value :=
| VStr (s : string)
| VBool (b : bool)
| VInt (n : Z)
| VList (ids : list Z)            (* a list of entry ids *)
| VArray (signature : string)     (* dbus.Array(signature=...), empty *)
| VObjectPath (path : string)     (* dbus.ObjectPath(...) *)
| VTuple (fields : list value)
| VFun (f : callable).

(** What leaves the process: signals on the bus, calls on the window. *)
Inductive effect :=
| RegisterStatusNotifierItem (service : string)
| PropertiesChanged (interface_name : string)
    (changed_properties : gmap string value)
    (invalidated_properties : list string)
| ItemsPropertiesUpdated (update_props : list (Z * gmap string value))
    (remove_props : list (Z * list string))
| view_show
| view_hide.

(** ** Exceptions and the monad of methods *)

Inductive exn := KeyError | TypeError.

Inductive result (A : Type) :=
| Ok (a : A)
| Raise (e : exn).
Arguments Ok {A} a.
Arguments Raise {A} e.

Global Instance result_ret : MRet result := @Ok.
Global Instance result_bind : MBind result := λ A B f r,
  match r with Ok a => f a | Raise e => Raise e end.

(** [d[k]] on a dictionary. *)
Definition getitem `{Countable K} {V} (d : gmap K V) (k : K) : result V :=
  match d !! k with Some v => Ok v | None => Raise KeyError end.

Record outcome (St A : Type) := Outcome {
  returned : result A;
  final : St;
  emitted : list effect
}.
Arguments Outcome {St A} returned final emitted.
Arguments returned {St A} o.
Arguments final {St A} o.
Arguments emitted {St A} o.

Definition M (St A : Type) : Type := St → outcome St A.

Section monad.
Context {St : Type}.

Definition ret {A} (a : A) : M St A := λ self, Outcome (Ok a) self [].

Definition bind {A B} (m : M St A) (k : A → M St B) : M St B := λ self,
  let r := m self in
  match returned r with
  | Ok a =>
      let r' := k a (final r) in
      Outcome (returned r') (final r') (emitted r ++ emitted r')
  | Raise e => Outcome (Raise e) (final r) (emitted r)
  end.

(** An expression that only reads the instance. *)
Definition reading {A} (f : St → result A) : M St A := λ self,
  Outcome (f self) self [].

Definition modify (f : St → St) : M St unit := λ self,
  Outcome (Ok tt) (f self) [].

Definition emit (e : effect) : M St unit := λ self,
  Outcome (Ok tt) self [e].

(** [v()]: only functions can be called. *)
Definition call (v : value) : M St unit :=
  match v with
  | VFun lambda_view_show => emit view_show
  | VFun lambda_view_hide => emit view_hide
  | VFun lambda_None => ret tt
  | _ => reading (λ _, Raise TypeError)
  end.

(** tomate's [@suppress_errors]: an exception of the wrapped method is
    logged and swallowed; what the method did before it stays done. *)
Definition suppress_errors (m : M St unit) : M St unit := λ self,
  let r := m self in
  match returned r with
  | Ok _ => r
  | Raise _ => Outcome (Ok tt) (final r) (emitted r)
  end.
End monad.

Global Instance M_ret {St} : MRet (M St) := @ret St.
Global Instance M_bind {St} : MBind (M St) := λ A B k m, bind m k.

(** ** class StatusNotifierItemStatus, class StatusNotifierItemCategory *)

(** [NeedsAttention] is only annotated in the class, not assigned: the
    class has the two attributes below. *)
Module StatusNotifierItemStatus.
Definition Passive := "Passive".
Definition Active := "Active".
End StatusNotifierItemStatus.

Module StatusNotifierItemCategory.
Definition ApplicationStatus := "ApplicationStatus".
Definition Communications := "Communications".
Definition SystemServices := "SystemServices".
Definition Hardware := "Hardware".
End StatusNotifierItemCategory.

Definition STATUS_NOTIFIER_ITEM_IFACE := "org.kde.StatusNotifierItem".
Definition DBUSMENU_IFACE := "com.canonical.dbusmenu".
Definition DbusMenu_OBJECT_PATH := "/MenuBar".

(** ** class StatusNotifierItem *)

Module StatusNotifierItem.

Record t := Build {
  category : string;
  status : string;
  icon_name : string;
  _dbus_interfaces : gmap string (gmap string value)
}.

(** [object_path], with [os.getpid()] given. *)
Definition object_path (pid : N) : string :=
  STATUS_NOTIFIER_ITEM_IFACE +:+ "-" +:+ pretty pid +:+ "-1".

(** The instance [__init__] leaves behind. The table of properties is
    built once, from the values [status] and [icon_name] have then. *)
Definition __init__ : t :=
  let status := StatusNotifierItemStatus.Passive in
  let icon_name := "tomate-idle" in
  {| category := StatusNotifierItemCategory.ApplicationStatus;
     status := status;
     icon_name := icon_name;
     _dbus_interfaces :=
       {[ STATUS_NOTIFIER_ITEM_IFACE :=
          <[ "AttentionIconName" := VStr "tomate-attention" ]> (
          <[ "AttentionIconPixmap" := VArray "(iiay)" ]> (
          <[ "Category" := VStr StatusNotifierItemCategory.ApplicationStatus ]> (
          <[ "IconName" := VStr icon_name ]> (
          <[ "IconPixmap" := VArray "(iiay)" ]> (
          <[ "Id" := VStr "tomate" ]> (
          <[ "ItemIsMenu" := VBool false ]> (
          <[ "Menu" := VObjectPath DbusMenu_OBJECT_PATH ]> (
          <[ "OverlayIconName" := VStr "" ]> (
          <[ "OverlayIconPixmap" := VArray "(iiay)" ]> (
          <[ "Status" := VStr status ]> (
          <[ "Title" := VStr "Tomate" ]> (
          <[ "ToolTip" := VTuple [VStr ""; VArray "(iiay)"; VStr ""; VStr ""] ]> (
          <[ "WindowId" := VInt 0 ]> ∅))))))))))))) ]} |}.

(** The call [__init__] ends with, on the watcher. *)
Definition register (pid : N) : M t unit :=
  emit (RegisterStatusNotifierItem (object_path pid)).

Definition change_icon (new_icon : string) : M t unit := λ self,
  if bool_decide (icon_name self = new_icon) then ret tt self
  else
    (modify (λ self, Build (category self) (status self) new_icon
                           (_dbus_interfaces self));;
     self' ← reading Ok;
     emit (PropertiesChanged STATUS_NOTIFIER_ITEM_IFACE
             {[ "IconName" := VStr (icon_name self') ]} [])) self.

Definition change_status (new_status : string) : M t unit := λ self,
  if bool_decide (status self = new_status) then ret tt self
  else
    (modify (λ self, Build (category self) new_status (icon_name self)
                           (_dbus_interfaces self));;
     self' ← reading Ok;
     emit (PropertiesChanged STATUS_NOTIFIER_ITEM_IFACE
             {[ "Status" := VStr (status self') ]} [])) self.

Definition ContextMenu (x y : Z) : M t unit := ret tt.
Definition Activate (x y : Z) : M t unit := ret tt.
Definition SecondaryActivate (x y : Z) : M t unit := ret tt.
Definition Scroll (delta : Z) (orientation : string) : M t unit := ret tt.

(** [Get]: [None] is Python's [None], the result of the two [.get]. *)
Definition Get (interface_name property_name : string)
  : M t (option value) :=
  reading (λ self,
    Ok (default ∅ (_dbus_interfaces self !! interface_name)
          !! property_name)).

(** [GetAll]: the default of [.get] is an argument, so it is looked up
    before the call, whatever [interface_name] is. *)
Definition GetAll (interface_name : string) : M t (gmap string value) :=
  reading (λ self,
    fallback ← getitem (_dbus_interfaces self) STATUS_NOTIFIER_ITEM_IFACE;
    Ok (default fallback (_dbus_interfaces self !! interface_name))).

(** The methods of an instance, as one type, and the instances they
    lead to. *)
Inductive method :=
| m_change_icon (new_icon : string)
| m_change_status (new_status : string)
| m_ContextMenu (x y : Z)
| m_Activate (x y : Z)
| m_SecondaryActivate (x y : Z)
| m_Scroll (delta : Z) (orientation : string)
| m_Get (interface_name property_name : string)
| m_GetAll (interface_name : string).

Definition invoke (c : method) : M t unit :=
  match c with
  | m_change_icon i => change_icon i
  | m_change_status s => change_status s
  | m_ContextMenu x y => ContextMenu x y
  | m_Activate x y => Activate x y
  | m_SecondaryActivate x y => SecondaryActivate x y
  | m_Scroll d o => Scroll d o
  | m_Get i p => Get i p;; mret tt
  | m_GetAll i => GetAll i;; mret tt
  end.

Inductive reachable : t → Prop :=
| reachable_init : reachable __init__
| reachable_invoke self c :
    reachable self → reachable (final (invoke c self)).

(** Names for the statements: the two signals of the item, and the
    fourteen properties of the item as [__init__] wrote them. *)
Definition status_changed (s : string) : effect :=
  PropertiesChanged STATUS_NOTIFIER_ITEM_IFACE {[ "Status" := VStr s ]} [].

Definition icon_changed (n : string) : effect :=
  PropertiesChanged STATUS_NOTIFIER_ITEM_IFACE {[ "IconName" := VStr n ]} [].

Definition item_properties : gmap string value :=
  default ∅ (_dbus_interfaces __init__ !! STATUS_NOTIFIER_ITEM_IFACE).

(** The methods the bus can call: those declared with
    [@dbus.service.method]. [change_icon] and [change_status] are not. *)
Definition on_bus (c : method) : bool :=
  match c with
  | m_change_icon _ | m_change_status _ => false
  | _ => true
  end.

End StatusNotifierItem.


(** ** A dictionary read in the order of its insertions

    [DbusMenu.items] is walked by [update_menu] in the order its keys were
    inserted, so it is a list of bindings with distinct keys. Its values,
    the entries, are dictionaries that are only indexed: they are [gmap]s. *)

Section odict.
Context {V : Type}.

Fixpoint od_lookup (d : list (Z * V)) (k : Z) : option V :=
  match d with
  | [] => None
  | (k', v) :: d' => if bool_decide (k' = k) then Some v else od_lookup d' k
  end.

(** [d[k]] *)
Definition od_getitem (d : list (Z * V)) (k : Z) : result V :=
  match od_lookup d k with Some v => Ok v | None => Raise KeyError end.

(** [k in d.keys()] *)
Definition od_contains (d : list (Z * V)) (k : Z) : bool :=
  bool_decide (is_Some (od_lookup d k)).

(** The value under [k] is changed where it is. *)
Fixpoint od_alter (f : V → V) (k : Z) (d : list (Z * V)) : list (Z * V) :=
  match d with
  | [] => []
  | (k', v) :: d' =>
      if bool_decide (k' = k) then (k', f v) :: d'
      else (k', v) :: od_alter f k d'
  end.
End odict.

(** ** class DbusMenuItem *)

Module DbusMenuItem.
Definition ATTRIBUTES : list string :=
  [ "children-display"; "disposition"; "enabled"; "label";
    "toggle-state"; "toggle-type"; "type"; "visible" ].
End DbusMenuItem.

(** ** class DbusMenu *)

(** A node of the answer of [GetLayout]:
    [(id, properties, children)], of signature [(ia{sv}av)]. *)
Inductive layout :=
| Layout (id : Z) (properties : gmap string value) (children : list layout).

Module DbusMenu.

Definition OBJECT_PATH := DbusMenu_OBJECT_PATH.
Definition SHOW := 1.
Definition HIDE := 2.

Record t := Build {
  revision : Z;
  items : list (Z * gmap string value);
  _dbus_interfaces : gmap string (gmap string value)
}.

Definition __init__ : t :=
  {| revision := 0;
     items :=
       [ (0,
          <[ "children-display" := VStr "submenu" ]> (
          <[ "disposition" := VStr "normal" ]> (
          <[ "enabled" := VBool true ]> (
          <[ "label" := VStr "" ]> (
          <[ "toggle-state" := VInt (-1) ]> (
          <[ "toggle-type" := VStr "" ]> (
          <[ "type" := VStr "standard" ]> (
          <[ "visible" := VBool true ]> (
          <[ "submenu" := VList [1; 2] ]> ∅)))))))));
         (SHOW,
          <[ "children-display" := VStr "" ]> (
          <[ "disposition" := VStr "normal" ]> (
          <[ "enabled" := VBool true ]> (
          <[ "label" := VStr "Show" ]> (
          <[ "toggle-state" := VInt (-1) ]> (
          <[ "toggle-type" := VStr "" ]> (
          <[ "type" := VStr "standard" ]> (
          <[ "visible" := VBool false ]> (
          <[ "clicked" := VFun lambda_view_show ]> ∅)))))))));
         (HIDE,
          <[ "children-display" := VStr "" ]> (
          <[ "disposition" := VStr "normal" ]> (
          <[ "enabled" := VBool true ]> (
          <[ "label" := VStr "Hide" ]> (
          <[ "toggle-state" := VInt (-1) ]> (
          <[ "toggle-type" := VStr "" ]> (
          <[ "type" := VStr "standard" ]> (
          <[ "visible" := VBool true ]> (
          <[ "clicked" := VFun lambda_view_hide ]> ∅))))))))) ];
     _dbus_interfaces :=
       {[ DBUSMENU_IFACE :=
          <[ "Status" := VStr "normal" ]> (
          <[ "TextDirection" := VStr "ltr" ]> (
          <[ "Version" := VInt 4 ]> ∅)) ]} |}.

(** [{k: item[k] for k in properties}] *)
Fixpoint dict_of_keys (item : gmap string value) (properties : list string)
  : result (gmap string value) :=
  match properties with
  | [] => Ok ∅
  | k :: properties' =>
      v ← getitem item k;
      d ← dict_of_keys item properties';
      Ok (<[ k := v ]> d)
  end.

Definition _render_item (item : gmap string value)
    (properties : option (list string)) : result (gmap string value) :=
  let properties :=
    match properties with
    | None => DbusMenuItem.ATTRIBUTES
    | Some names =>
        if bool_decide (length names = 0%nat) then DbusMenuItem.ATTRIBUTES
        else names
    end in
  dict_of_keys item properties.

(** What is under "submenu" is the list of ids [__init__] put there; for
    a value that is no list the model answers [TypeError]. *)
Definition _render_submenu (items : list (Z * gmap string value))
    (item : gmap string value) (properties : option (list string))
  : result (list layout) :=
  match item !! "submenu" with
  | Some (VList ids) =>
      mapM (λ idx,
              child ← od_getitem items idx;
              rendered ← _render_item child properties;
              Ok (Layout idx rendered []))
           ids
  | Some _ => Raise TypeError
  | None => Ok []
  end.

Definition set_items (f : list (Z * gmap string value) →
                          list (Z * gmap string value)) (self : t) : t :=
  Build (revision self) (f (items self)) (_dbus_interfaces self).

(** [self.items[idx]["visible"] = b] *)
Definition set_visible (idx : Z) (b : bool) : M t unit :=
  reading (λ self, od_getitem (items self) idx);;
  modify (set_items (od_alter (<[ "visible" := VBool b ]>) idx)).

Definition update_menu (is_visible : bool) : M t unit :=
  set_visible SHOW (negb is_visible);;
  set_visible HIDE is_visible;;
  update_props ← reading (λ self,
    mapM (λ '(idx, item),
            rendered ← _render_item item None;
            Ok (idx, rendered))
         (items self));
  emit (ItemsPropertiesUpdated update_props []).

Definition GetLayout (parent_id recursion_depth : Z)
    (property_names : option (list string)) : M t (Z * layout) :=
  reading (λ self,
    item ← od_getitem (items self) parent_id;
    rendered ← _render_item item property_names;
    item ← od_getitem (items self) parent_id;
    children ← _render_submenu (items self) item property_names;
    Ok (revision self, Layout parent_id rendered children)).

(** [self.items[idx].get(event_id, lambda: None)()] *)
Definition Event (idx : Z) (event_id : string) (data : value)
    (timestamp : Z) : M t unit :=
  item ← reading (λ self, od_getitem (items self) idx);
  call (default (VFun lambda_None) (item !! event_id)).

Definition EventGroup (events : list (Z * string * value * Z))
  : M t (list Z) :=
  mret [].

Definition GetProperty (idx : Z) (name : string) : M t value :=
  reading (λ self,
    item ← od_getitem (items self) idx;
    getitem item name).

(** [[(idx, ...) for idx in ids if idx in self.items.keys()]] *)
Fixpoint group_properties (items : list (Z * gmap string value))
    (property_names : option (list string)) (ids : list Z)
  : result (list (Z * gmap string value)) :=
  match ids with
  | [] => Ok []
  | idx :: ids' =>
      if od_contains items idx then
        item ← od_getitem items idx;
        rendered ← _render_item item property_names;
        rest ← group_properties items property_names ids';
        Ok ((idx, rendered) :: rest)
      else group_properties items property_names ids'
  end.

Definition GetGroupProperties (ids : list Z)
    (property_names : option (list string))
  : M t (list (Z * gmap string value)) :=
  reading (λ self, group_properties (items self) property_names ids).

Definition AboutToShow (idx : Z) : M t bool := mret false.

Definition AboutToShowGroup (ids updates_needed : list Z)
  : M t (list Z * list Z) :=
  mret ([], []).

Definition Get (interface_name property_name : string)
  : M t (option value) :=
  reading (λ self,
    Ok (default ∅ (_dbus_interfaces self !! interface_name)
          !! property_name)).

Definition GetAll (interface_name : string) : M t (gmap string value) :=
  reading (λ self,
    fallback ← getitem (_dbus_interfaces self) DBUSMENU_IFACE;
    Ok (default fallback (_dbus_interfaces self !! interface_name))).

Inductive method :=
| m_update_menu (is_visible : bool)
| m_GetLayout (parent_id recursion_depth : Z)
    (property_names : option (list string))
| m_Event (idx : Z) (event_id : string) (data : value) (timestamp : Z)
| m_EventGroup (events : list (Z * string * value * Z))
| m_GetProperty (idx : Z) (name : string)
| m_GetGroupProperties (ids : list Z) (property_names : option (list string))
| m_AboutToShow (idx : Z)
| m_AboutToShowGroup (ids updates_needed : list Z)
| m_Get (interface_name property_name : string)
| m_GetAll (interface_name : string).

Definition invoke (c : method) : M t unit :=
  match c with
  | m_update_menu v => update_menu v
  | m_GetLayout p d n => GetLayout p d n;; mret tt
  | m_Event i e d ts => Event i e d ts
  | m_EventGroup evs => EventGroup evs;; mret tt
  | m_GetProperty i n => GetProperty i n;; mret tt
  | m_GetGroupProperties ids n => GetGroupProperties ids n;; mret tt
  | m_AboutToShow i => AboutToShow i;; mret tt
  | m_AboutToShowGroup ids u => AboutToShowGroup ids u;; mret tt
  | m_Get i p => Get i p;; mret tt
  | m_GetAll i => GetAll i;; mret tt
  end.

Inductive reachable : t → Prop :=
| reachable_init : reachable __init__
| reachable_invoke self c :
    reachable self → reachable (final (invoke c self)).

(** Names for the statements. *)

(** The three entries, with the flags [update_menu] writes. *)
Definition root_entry : gmap string value :=
  <[ "children-display" := VStr "submenu" ]> (
  <[ "disposition" := VStr "normal" ]> (
  <[ "enabled" := VBool true ]> (
  <[ "label" := VStr "" ]> (
  <[ "toggle-state" := VInt (-1) ]> (
  <[ "toggle-type" := VStr "" ]> (
  <[ "type" := VStr "standard" ]> (
  <[ "visible" := VBool true ]> (
  <[ "submenu" := VList [1; 2] ]> ∅)))))))).

Definition leaf_entry (label : string) (visible : bool) (f : callable)
  : gmap string value :=
  <[ "children-display" := VStr "" ]> (
  <[ "disposition" := VStr "normal" ]> (
  <[ "enabled" := VBool true ]> (
  <[ "label" := VStr label ]> (
  <[ "toggle-state" := VInt (-1) ]> (
  <[ "toggle-type" := VStr "" ]> (
  <[ "type" := VStr "standard" ]> (
  <[ "visible" := VBool visible ]> (
  <[ "clicked" := VFun f ]> ∅)))))))).

(** The menu when the window is visible, or not. *)
Definition menu_when (is_visible : bool) : t :=
  Build 0
    [ (0, root_entry);
      (SHOW, leaf_entry "Show" (negb is_visible) lambda_view_show);
      (HIDE, leaf_entry "Hide" is_visible lambda_view_hide) ]
    (_dbus_interfaces __init__).

(** The keys of the entries. *)
Definition entry_keys (idx : Z) : list string :=
  (if bool_decide (idx = 0) then "submenu" else "clicked")
    :: DbusMenuItem.ATTRIBUTES.

(** The names [_render_item] renders. *)
Definition rendered_names (properties : option (list string)) : list string :=
  match properties with
  | None | Some [] => DbusMenuItem.ATTRIBUTES
  | Some names => names
  end.

End DbusMenu.


(** ** Python's ["{:02.0f}".format(x)] on a float

    The format prints the exact value of the binary64 number [x], rounded
    to no digit after the point with ties going to the even neighbour, and
    fills with zeros, after the sign, up to two characters. [Prim2SF] gives
    the sign, the mantissa [m] and the exponent [e] of [x = m * 2^e]. *)

(** [m * 2^e] rounded to an integer, ties to even. *)
Definition round_half_even (m : positive) (e : Z) : Z :=
  if bool_decide (0 ≤ e)%Z then Z.pos m * 2 ^ e
  else
    let d := 2 ^ (- e) in
    let q := Z.pos m `div` d in
    let r := Z.pos m `mod` d in
    match 2 * r ?= d with
    | Lt => q
    | Gt => q + 1
    | Eq => if Z.even q then q else q + 1
    end.

(** The sign, zeros up to [width] characters in all, the digits. *)
Definition zero_fill (width : nat) (sign digits : string) : string :=
  sign +:+
  String.concat "" (replicate (width - String.length sign
                                     - String.length digits) "0") +:+
  digits.

Definition sign_of (negative : bool) : string :=
  if negative then "-" else "".

Definition format_02_0f (x : float) : string :=
  match Prim2SF x with
  | S754_nan => zero_fill 2 "" "nan"
  | S754_infinity s => zero_fill 2 (sign_of s) "inf"
  | S754_zero s => zero_fill 2 (sign_of s) "0"
  | S754_finite s m e => zero_fill 2 (sign_of s) (pretty (round_half_even m e))
  end.

(** The number a float stands for; none for the infinities and NaN. *)
Definition float_value (x : float) : option Q :=
  match Prim2SF x with
  | S754_zero _ => Some 0%Q
  | S754_finite s m e =>
      let magnitude :=
        if bool_decide (0 ≤ e)%Z then inject_Z (Z.pos m * 2 ^ e)
        else Qmake (Z.pos m) (Z.to_pos (2 ^ (- e))) in
      Some (if s then Qopp magnitude else magnitude)
  | _ => None
  end.

(** ** class StatusNotifierItemPlugin *)

Module StatusNotifierItemPlugin.

(** The plugin once [configure] has built its two objects.
    [is_activated] is the flag of the base class [plugin.Plugin], which is
    not part of this file: [activate] sets it and [deactivate] clears it. *)
Record t := Build {
  is_activated : bool;
  status_item : StatusNotifierItem.t;
  dbus_menu : DbusMenu.t
}.

Definition configure : t :=
  {| is_activated := false;
     status_item := StatusNotifierItem.__init__;
     dbus_menu := DbusMenu.__init__ |}.

(** A method of [self.status_item], run from the plugin. *)
Definition on_status_item {A} (m : M StatusNotifierItem.t A) : M t A :=
  λ self,
    let r := m (status_item self) in
    Outcome (returned r)
            (Build (is_activated self) (final r) (dbus_menu self))
            (emitted r).

(** A method of [self.dbus_menu], run from the plugin. *)
Definition on_dbus_menu {A} (m : M DbusMenu.t A) : M t A :=
  λ self,
    let r := m (dbus_menu self) in
    Outcome (returned r)
            (Build (is_activated self) (status_item self) (final r))
            (emitted r).

Definition set_is_activated (b : bool) : M t unit :=
  modify (λ self, Build b (status_item self) (dbus_menu self)).

Definition change_icon (new_icon : string) : M t unit := λ self,
  if is_activated self
  then on_status_item (StatusNotifierItem.change_icon new_icon) self
  else ret tt self.

Definition change_status (new_status : string) : M t unit := λ self,
  if is_activated self
  then on_status_item (StatusNotifierItem.change_status new_status) self
  else ret tt self.

Definition change_visibility (view_is_visible : bool) : M t unit := λ self,
  if is_activated self
  then on_dbus_menu (DbusMenu.update_menu view_is_visible) self
  else ret tt self.

Definition icon_name (percent : float) : string :=
  "tomate-" +:+ format_02_0f percent.

(** [session_is_running] is what [self.session.is_running()] answers. *)
Definition activate (session_is_running : bool) : M t unit :=
  suppress_errors (
    set_is_activated true;;
    if session_is_running
    then change_status StatusNotifierItemStatus.Active
    else mret tt).

Definition deactivate : M t unit :=
  suppress_errors (
    change_status StatusNotifierItemStatus.Passive;;
    set_is_activated false).

Definition on_session_start : M t unit :=
  suppress_errors (
    change_status StatusNotifierItemStatus.Active;;
    change_visibility true).

Definition on_session_stop : M t unit :=
  suppress_errors (change_status StatusNotifierItemStatus.Passive).

(** [elapsed_percent] is the field of the payload. *)
Definition on_timer_update (elapsed_percent : float) : M t unit :=
  suppress_errors (change_icon (icon_name elapsed_percent)).

Definition on_window_show : M t unit := change_visibility true.

Definition on_window_hide : M t unit := change_visibility false.

(** What happens to a configured plugin: the calls of the application
    on the plugin, and the calls of the bus on its two objects. *)
Inductive method :=
| m_activate (session_is_running : bool)
| m_deactivate
| m_on_session_start
| m_on_session_stop
| m_on_timer_update (elapsed_percent : float)
| m_on_window_show
| m_on_window_hide
| m_status_item (c : StatusNotifierItem.method)
| m_dbus_menu (c : DbusMenu.method).

Definition invoke (c : method) : M t unit :=
  match c with
  | m_activate running => activate running
  | m_deactivate => deactivate
  | m_on_session_start => on_session_start
  | m_on_session_stop => on_session_stop
  | m_on_timer_update percent => on_timer_update percent
  | m_on_window_show => on_window_show
  | m_on_window_hide => on_window_hide
  | m_status_item c => on_status_item (StatusNotifierItem.invoke c)
  | m_dbus_menu c => on_dbus_menu (DbusMenu.invoke c)
  end.

(** The item is called by the plugin and by the bus only, so of its
    methods the bus ones alone are calls of their own. *)
Definition allowed (c : method) : Prop :=
  match c with
  | m_status_item c => StatusNotifierItem.on_bus c = true
  | _ => True
  end.

Inductive reachable : t → Prop :=
| reachable_configure : reachable configure
| reachable_invoke self c :
    allowed c → reachable self → reachable (final (invoke c self)).

(** What the calls keep: the status is Passive or Active, it is
    Passive while the plugin is not activated, and the two objects are in
    states their own methods lead to. *)
Definition invariant (self : t) : Prop :=
  (StatusNotifierItem.status (status_item self) =
     StatusNotifierItemStatus.Passive ∨
   StatusNotifierItem.status (status_item self) =
     StatusNotifierItemStatus.Active) ∧
  (is_activated self = false →
   StatusNotifierItem.status (status_item self) =
     StatusNotifierItemStatus.Passive) ∧
  StatusNotifierItem.reachable (status_item self) ∧
  DbusMenu.reachable (dbus_menu self).

End StatusNotifierItemPlugin.


(** ** Names for the statements *)

(** The dictionaries of a layout: those of the node and of its children. *)
Fixpoint layout_properties (l : layout) : list (gmap string value) :=
  match l with
  | Layout _ properties children =>
      properties :: flat_map layout_properties children
  end.

(** A dictionary with the eight attributes as its keys, and no other. *)
Definition only_attributes (rendered : gmap string value) : Prop :=
  dom rendered =
    {[ "children-display"; "disposition"; "enabled"; "label";
       "toggle-state"; "toggle-type"; "type"; "visible" ]} ∧
  rendered !! "clicked" = None ∧
  rendered !! "submenu" = None.

(** A signal that tells a change of the property Status. *)
Definition is_status_notification (e : effect) : bool :=
  match e with
  | PropertiesChanged _ changed_properties _ =>
      bool_decide (is_Some (changed_properties !! "Status"))
  | _ => false
  end.

(** A number below 100 on two digits; 100 and above as it is. *)
Definition two_digits (n : Z) : string :=
  if bool_decide (n < 10)%Z then "0" +:+ pretty n else pretty n.

(** The three properties of the menu, as [__init__] wrote them. *)
Definition menu_properties : gmap string value :=
  default ∅ (DbusMenu._dbus_interfaces DbusMenu.__init__ !! DBUSMENU_IFACE).

(** The ids under an entry: Show and Hide under the root, none under
    them. *)
Definition children_of (idx : Z) : list Z :=
  if bool_decide (idx = 0) then [DbusMenu.SHOW; DbusMenu.HIDE] else [].

Definition layout_id (l : layout) : Z :=
  match l with Layout id _ _ => id end.

Definition layout_children (l : layout) : list layout :=
  match l with Layout _ _ children => children end.

(** * Properties *)

(** ** The monad *)

Section monad_facts.
Context {St : Type}.

Lemma bind_Ok {A B} (m : M St A) (k : A → M St B) self a :
  returned (m self) = Ok a →
  (m ≫= k) self =
    Outcome (returned (k a (final (m self))))
            (final (k a (final (m self))))
            (emitted (m self) ++ emitted (k a (final (m self)))).
Proof. intros Hm. unfold mbind, M_bind, bind. by rewrite Hm. Qed.

Lemma bind_Raise {A B} (m : M St A) (k : A → M St B) self e :
  returned (m self) = Raise e →
  (m ≫= k) self = Outcome (Raise e) (final (m self)) (emitted (m self)).
Proof. intros Hm. unfold mbind, M_bind, bind. by rewrite Hm. Qed.

(** A method that only reads leaves the instance as it was and emits
    nothing, whatever it returns or raises. *)
Lemma reading_then_ret {A} (f : St → result A) self :
  final ((reading f;; mret tt) self) = self ∧
  emitted ((reading f;; mret tt) self) = [].
Proof.
  unfold mbind, M_bind, bind, reading. simpl. by destruct (f self).
Qed.

Lemma suppress_errors_returned (m : M St unit) self :
  returned (suppress_errors m self) = Ok tt.
Proof.
  unfold suppress_errors. by destruct (returned (m self)) as [[]|] eqn:E.
Qed.

Lemma suppress_errors_final (m : M St unit) self :
  final (suppress_errors m self) = final (m self).
Proof. unfold suppress_errors. by destruct (returned (m self)). Qed.

Lemma suppress_errors_emitted (m : M St unit) self :
  emitted (suppress_errors m self) = emitted (m self).
Proof. unfold suppress_errors. by destruct (returned (m self)). Qed.
End monad_facts.

(** ** StatusNotifierItem *)

Module StatusNotifierItemFacts.
Import StatusNotifierItem.

Lemma change_status_same self s :
  status self = s → change_status s self = Outcome (Ok tt) self [].
Proof. intros Hs. unfold change_status. by rewrite bool_decide_eq_true_2. Qed.

Lemma change_status_other self s :
  status self ≠ s →
  change_status s self =
    Outcome (Ok tt)
            (Build (category self) s (icon_name self) (_dbus_interfaces self))
            [status_changed s].
Proof. intros Hs. unfold change_status. by rewrite bool_decide_eq_false_2. Qed.

Lemma change_icon_same self n :
  icon_name self = n → change_icon n self = Outcome (Ok tt) self [].
Proof. intros Hs. unfold change_icon. by rewrite bool_decide_eq_true_2. Qed.

Lemma change_icon_other self n :
  icon_name self ≠ n →
  change_icon n self =
    Outcome (Ok tt)
            (Build (category self) (status self) n (_dbus_interfaces self))
            [icon_changed n].
Proof. intros Hs. unfold change_icon. by rewrite bool_decide_eq_false_2. Qed.

Lemma change_status_sets self s : status (final (change_status s self)) = s.
Proof.
  destruct (decide (status self = s)) as [Hs|Hs].
  - by rewrite change_status_same.
  - by rewrite change_status_other.
Qed.

(** No method rebinds or updates the table of properties. *)
Lemma invoke_keeps_interfaces c self :
  _dbus_interfaces (final (invoke c self)) = _dbus_interfaces self.
Proof.
  destruct c; unfold invoke; try done.
  - destruct (decide (icon_name self = new_icon)) as [Hs|Hs].
    + by rewrite change_icon_same.
    + by rewrite change_icon_other.
  - destruct (decide (status self = new_status)) as [Hs|Hs].
    + by rewrite change_status_same.
    + by rewrite change_status_other.
  - unfold GetAll. by rewrite (proj1 (reading_then_ret _ self)).
Qed.

Lemma reachable_interfaces self :
  reachable self → _dbus_interfaces self = _dbus_interfaces __init__.
Proof.
  induction 1 as [|self c _ IH]; [done|].
  by rewrite invoke_keeps_interfaces.
Qed.

End StatusNotifierItemFacts.

(** C4, as stated, fails: two calls [change_status s] in a row with the
    status the item already has emit no signal at all, not one. *)
Lemma change_status_twice_unchanged_emits_nothing :
  emitted ((StatusNotifierItem.change_status "Passive";;
            StatusNotifierItem.change_status "Passive")
             StatusNotifierItem.__init__) = [] ∧
  length (emitted ((StatusNotifierItem.change_status "Passive";;
                    StatusNotifierItem.change_status "Passive")
                     StatusNotifierItem.__init__)) ≠ 1%nat.
Proof. split; [reflexivity|discriminate]. Qed.

(** C4, amended. [change_status s] does nothing, and emits nothing, when
    [s] is the status the item has; otherwise it stores [s] and emits one
    PropertiesChanged signal that carries the property Status and no
    other. [change_icon n] does the same with IconName. So the second of
    two calls [change_status s] in a row emits nothing, and the two
    together emit one signal when [s] was not the status before the
    first call, and none when it was. *)
Theorem change_status_change_icon_notify_once
    (self : StatusNotifierItem.t) (s n : string) :
  (StatusNotifierItem.status self = s →
     StatusNotifierItem.change_status s self = Outcome (Ok tt) self []) ∧
  (StatusNotifierItem.status self ≠ s →
     StatusNotifierItem.change_status s self =
       Outcome (Ok tt)
         (StatusNotifierItem.Build
            (StatusNotifierItem.category self) s
            (StatusNotifierItem.icon_name self)
            (StatusNotifierItem._dbus_interfaces self))
         [PropertiesChanged STATUS_NOTIFIER_ITEM_IFACE
            {[ "Status" := VStr s ]} []]) ∧
  (StatusNotifierItem.icon_name self = n →
     StatusNotifierItem.change_icon n self = Outcome (Ok tt) self []) ∧
  (StatusNotifierItem.icon_name self ≠ n →
     StatusNotifierItem.change_icon n self =
       Outcome (Ok tt)
         (StatusNotifierItem.Build
            (StatusNotifierItem.category self)
            (StatusNotifierItem.status self) n
            (StatusNotifierItem._dbus_interfaces self))
         [PropertiesChanged STATUS_NOTIFIER_ITEM_IFACE
            {[ "IconName" := VStr n ]} []]) ∧
  emitted (StatusNotifierItem.change_status s
             (final (StatusNotifierItem.change_status s self))) = [] ∧
  (StatusNotifierItem.status self ≠ s →
     emitted ((StatusNotifierItem.change_status s;;
               StatusNotifierItem.change_status s) self) =
       [PropertiesChanged STATUS_NOTIFIER_ITEM_IFACE
          {[ "Status" := VStr s ]} []]) ∧
  (StatusNotifierItem.status self = s →
     emitted ((StatusNotifierItem.change_status s;;
               StatusNotifierItem.change_status s) self) = []).
Proof.
  split_and!.
  - apply StatusNotifierItemFacts.change_status_same.
  - apply StatusNotifierItemFacts.change_status_other.
  - apply StatusNotifierItemFacts.change_icon_same.
  - apply StatusNotifierItemFacts.change_icon_other.
  - rewrite StatusNotifierItemFacts.change_status_same; [done|].
    apply StatusNotifierItemFacts.change_status_sets.
  - intros Hs.
    erewrite bind_Ok
      by (by rewrite StatusNotifierItemFacts.change_status_other).
    rewrite (StatusNotifierItemFacts.change_status_same
               (final (StatusNotifierItem.change_status s self)))
      by apply StatusNotifierItemFacts.change_status_sets.
    by rewrite StatusNotifierItemFacts.change_status_other.
  - intros Hs.
    erewrite bind_Ok
      by (by rewrite StatusNotifierItemFacts.change_status_same).
    rewrite (StatusNotifierItemFacts.change_status_same self s Hs).
    cbn [final emitted app].
    by rewrite (StatusNotifierItemFacts.change_status_same self s Hs).
Qed.

Lemma change_status_change_icon_notify_once_witness :
  StatusNotifierItem.change_status "Active" StatusNotifierItem.__init__ =
    Outcome (Ok tt)
      (StatusNotifierItem.Build "ApplicationStatus" "Active" "tomate-idle"
         (StatusNotifierItem._dbus_interfaces StatusNotifierItem.__init__))
      [PropertiesChanged STATUS_NOTIFIER_ITEM_IFACE
         {[ "Status" := VStr "Active" ]} []] ∧
  StatusNotifierItem.change_icon "tomate-idle" StatusNotifierItem.__init__ =
    Outcome (Ok tt) StatusNotifierItem.__init__ [] ∧
  emitted ((StatusNotifierItem.change_status "Active";;
            StatusNotifierItem.change_status "Active")
             StatusNotifierItem.__init__) =
    [PropertiesChanged STATUS_NOTIFIER_ITEM_IFACE
       {[ "Status" := VStr "Active" ]} []] ∧
  emitted ((StatusNotifierItem.change_status "Passive";;
            StatusNotifierItem.change_status "Passive")
             StatusNotifierItem.__init__) = [].
Proof.
  pose proof (change_status_change_icon_notify_once
                StatusNotifierItem.__init__ "Active" "tomate-idle")
    as (_ & Hother & Hsame & _ & _ & Htwice & _).
  pose proof (change_status_change_icon_notify_once
                StatusNotifierItem.__init__ "Passive" "tomate-idle")
    as (_ & _ & _ & _ & _ & _ & Hunchanged).
  split_and!.
  - apply Hother. simpl. discriminate.
  - apply Hsame. reflexivity.
  - apply Htwice. simpl. discriminate.
  - apply Hunchanged. reflexivity.
Defined.

Lemma StatusNotifierItem_interfaces self :
  StatusNotifierItem.reachable self →
  StatusNotifierItem._dbus_interfaces self =
    {[ STATUS_NOTIFIER_ITEM_IFACE := StatusNotifierItem.item_properties ]}.
Proof.
  intros Hr. by rewrite StatusNotifierItemFacts.reachable_interfaces.
Qed.

(** C6, as stated, fails: asked for all the properties of an interface
    it does not know, the item answers with the properties of
    org.kde.StatusNotifierItem, not with an empty result. *)
Lemma GetAll_unknown_interface_not_empty :
  returned (StatusNotifierItem.GetAll "org.example.Unknown"
              StatusNotifierItem.__init__)
    = Ok StatusNotifierItem.item_properties ∧
  returned (StatusNotifierItem.GetAll "org.example.Unknown"
              StatusNotifierItem.__init__)
    ≠ Ok ∅.
Proof.
  split; [reflexivity|]. vm_compute. discriminate.
Qed.

(** C6, amended. On every item the methods lead to, [Get] and [GetAll]
    never fail and change nothing. [Get] answers [None] for an interface
    other than org.kde.StatusNotifierItem and for a name that is not one
    of its fourteen properties. [GetAll] answers with the fourteen
    properties of org.kde.StatusNotifierItem for every interface name,
    the unknown ones too. *)
Theorem Get_GetAll_never_fail
    (self : StatusNotifierItem.t) (interface_name property_name : string) :
  StatusNotifierItem.reachable self →
  (∃ v, StatusNotifierItem.Get interface_name property_name self =
          Outcome (Ok v) self []) ∧
  (interface_name ≠ STATUS_NOTIFIER_ITEM_IFACE →
     StatusNotifierItem.Get interface_name property_name self =
       Outcome (Ok None) self []) ∧
  (StatusNotifierItem.item_properties !! property_name = None →
     StatusNotifierItem.Get interface_name property_name self =
       Outcome (Ok None) self []) ∧
  StatusNotifierItem.GetAll interface_name self =
    Outcome (Ok StatusNotifierItem.item_properties) self [] ∧
  size StatusNotifierItem.item_properties = 14%nat.
Proof.
  intros Hr. pose proof (StatusNotifierItem_interfaces self Hr) as Hi.
  unfold StatusNotifierItem.Get, StatusNotifierItem.GetAll, reading, getitem.
  rewrite Hi. split_and!.
  - eauto.
  - intros Hne. by rewrite lookup_singleton_ne.
  - intros Hnone.
    destruct (decide (interface_name = STATUS_NOTIFIER_ITEM_IFACE)) as [->|Hne].
    + rewrite lookup_singleton_eq. simpl. by rewrite Hnone.
    + by rewrite lookup_singleton_ne.
  - rewrite lookup_singleton_eq. simpl.
    destruct (decide (interface_name = STATUS_NOTIFIER_ITEM_IFACE)) as [->|Hne].
    + by rewrite lookup_singleton_eq.
    + by rewrite lookup_singleton_ne.
  - reflexivity.
Qed.

Lemma Get_GetAll_never_fail_witness :
  StatusNotifierItem.Get "org.example.Unknown" "Status"
      StatusNotifierItem.__init__ =
    Outcome (Ok None) StatusNotifierItem.__init__ [] ∧
  StatusNotifierItem.GetAll "org.example.Unknown"
      StatusNotifierItem.__init__ =
    Outcome (Ok StatusNotifierItem.item_properties)
      StatusNotifierItem.__init__ [].
Proof.
  pose proof (Get_GetAll_never_fail StatusNotifierItem.__init__
                "org.example.Unknown" "Status"
                StatusNotifierItem.reachable_init)
    as (_ & Hiface & _ & Hall & _).
  split.
  - apply Hiface. discriminate.
  - exact Hall.
Defined.

(** ** DbusMenu *)

Module DbusMenuFacts.
Import DbusMenu.

Lemma init_menu_when : __init__ = menu_when true.
Proof. reflexivity. Qed.

Lemma update_menu_final v v' :
  final (update_menu v' (menu_when v)) = menu_when v'.
Proof. by destruct v, v'. Qed.

Lemma call_final (v : value) (self : t) : final (call v self) = self.
Proof. by destruct v as [| | | | | | |[]]. Qed.

Lemma call_as_outcome (v : value) (self : t) :
  Outcome (returned (call v self)) (final (call v self))
          (emitted (call v self)) = call v self.
Proof. by destruct v as [| | | | | | |[]]. Qed.

(** [Event] on any menu: the entry is looked up, then what is under
    [event_id], or the default, is called. *)
Lemma Event_unfold idx event_id data timestamp self :
  Event idx event_id data timestamp self =
    match od_lookup (items self) idx with
    | Some item => call (default (VFun lambda_None) (item !! event_id)) self
    | None => Outcome (Raise KeyError) self []
    end.
Proof.
  unfold Event, mbind, M_bind, bind, reading, od_getitem.
  destruct (od_lookup (items self) idx) as [item|]; simpl; [|done].
  apply call_as_outcome.
Qed.

Lemma invoke_final c v : ∃ v', final (invoke c (menu_when v)) = menu_when v'.
Proof.
  destruct c; unfold invoke;
    try (exists v; apply (proj1 (reading_then_ret _ _))); try by exists v.
  - eexists. apply update_menu_final.
  - exists v. rewrite Event_unfold.
    destruct (od_lookup _ _); [apply call_final|done].
Qed.

(** Every menu the methods lead to is one of the two. *)
Lemma reachable_menu_when self : reachable self → ∃ v, self = menu_when v.
Proof.
  induction 1 as [|self c _ [v ->]]; [by exists true|].
  destruct (invoke_final c v) as [v' ->]. by exists v'.
Qed.

Lemma od_lookup_menu_when v idx :
  od_lookup (items (menu_when v)) idx =
    if bool_decide (idx = 0) then Some root_entry
    else if bool_decide (idx = SHOW)
         then Some (leaf_entry "Show" (negb v) lambda_view_show)
    else if bool_decide (idx = HIDE)
         then Some (leaf_entry "Hide" v lambda_view_hide)
    else None.
Proof.
  simpl. rewrite !(bool_decide_ext (_ = idx) (idx = _)) by naive_solver.
  done.
Qed.

Lemma dom_root_entry :
  dom root_entry = list_to_set (entry_keys 0).
Proof. reflexivity. Qed.

Lemma dom_leaf_entry label visible f idx :
  idx ≠ 0 → dom (leaf_entry label visible f) = list_to_set (entry_keys idx).
Proof.
  intros Hidx. unfold entry_keys. rewrite bool_decide_eq_false_2 by done.
  unfold leaf_entry. rewrite !dom_insert_L, dom_empty_L.
  simpl. set_solver.
Qed.

Lemma menu_entry_dom v idx item :
  od_lookup (items (menu_when v)) idx = Some item →
  dom item = list_to_set (entry_keys idx).
Proof.
  rewrite od_lookup_menu_when. unfold SHOW, HIDE.
  repeat case_bool_decide; intros [=<-]; subst.
  - apply dom_root_entry.
  - by apply dom_leaf_entry.
  - by apply dom_leaf_entry.
Qed.

End DbusMenuFacts.

(** C1. [GetLayout] never reads [recursion_depth]: it answers as for
    the depth -1 whatever the depth is. With the depth 0, for which its
    docstring promises an empty array, the root comes with both its
    children. *)
Theorem GetLayout_ignores_recursion_depth
    (self : DbusMenu.t) (parent_id recursion_depth : Z)
    (property_names : option (list string)) :
  DbusMenu.GetLayout parent_id recursion_depth property_names self =
    DbusMenu.GetLayout parent_id (-1) property_names self ∧
  ∃ root show hide,
    returned (DbusMenu.GetLayout 0 0 (Some []) DbusMenu.__init__) =
      Ok (0, Layout 0 root [Layout 1 show []; Layout 2 hide []]) ∧
    show !! "label" = Some (VStr "Show") ∧
    hide !! "label" = Some (VStr "Hide").
Proof.
  split; [reflexivity|].
  do 3 eexists. split; [reflexivity|]. split; reflexivity.
Qed.

(** C2. [EventGroup] looks at no event: it calls nothing, changes
    nothing and answers with an empty array, also for a batch with a
    click on Hide and a click on an id the menu does not have. *)
Theorem EventGroup_dispatches_nothing
    (self : DbusMenu.t) (events : list (Z * string * value * Z)) :
  DbusMenu.EventGroup events self = Outcome (Ok []) self [] ∧
  DbusMenu.EventGroup
      [ (DbusMenu.HIDE, "clicked", VInt 0, 0);
        (9999, "clicked", VInt 0, 0) ]
      DbusMenu.__init__ =
    Outcome (Ok []) DbusMenu.__init__ [].
Proof. split; reflexivity. Qed.

(** C3, as stated, fails: a click on an id the menu does not have is not
    a silent no-op, the lookup of the entry raises [KeyError]. *)
Lemma Event_unknown_id_raises :
  returned (DbusMenu.Event 9999 "clicked" (VInt 0) 0 DbusMenu.__init__) =
    Raise KeyError ∧
  returned (DbusMenu.Event 9999 "clicked" (VInt 0) 0 DbusMenu.__init__) ≠
    Ok tt.
Proof. split; [reflexivity|discriminate]. Qed.

(** An event id that is the name of a property finds a value that is no
    function, and the call of it raises [TypeError]. *)
Example Event_on_property_name_raises :
  DbusMenu.Event 0 "label" (VInt 0) 0 DbusMenu.__init__ =
    Outcome (Raise TypeError) DbusMenu.__init__ [].
Proof. reflexivity. Qed.

(** C3, amended. On every menu the methods lead to: "clicked" on Show
    calls [view.show()] once and "clicked" on Hide calls [view.hide()]
    once; on an entry of the menu, an event id that is no key of the
    entry (so "clicked" on the root, "hovered", "opened", "closed" and the
    vendor ones) does nothing and raises nothing; on an id that the
    menu does not have, the call raises [KeyError], with nothing called
    and nothing changed. *)
Theorem Event_dispatch
    (self : DbusMenu.t) (idx : Z) (event_id : string)
    (data : value) (timestamp : Z) :
  DbusMenu.reachable self →
  DbusMenu.Event DbusMenu.SHOW "clicked" data timestamp self =
    Outcome (Ok tt) self [view_show] ∧
  DbusMenu.Event DbusMenu.HIDE "clicked" data timestamp self =
    Outcome (Ok tt) self [view_hide] ∧
  DbusMenu.Event 0 "clicked" data timestamp self = Outcome (Ok tt) self [] ∧
  (idx ∈ [0; DbusMenu.SHOW; DbusMenu.HIDE] →
   event_id ∉ DbusMenu.entry_keys idx →
     DbusMenu.Event idx event_id data timestamp self =
       Outcome (Ok tt) self []) ∧
  (idx ∉ [0; DbusMenu.SHOW; DbusMenu.HIDE] →
     DbusMenu.Event idx event_id data timestamp self =
       Outcome (Raise KeyError) self []).
Proof.
  intros Hr. destruct (DbusMenuFacts.reachable_menu_when self Hr) as [v ->].
  split_and!.
  - by destruct v.
  - by destruct v.
  - by destruct v.
  - intros Hidx Hkey. rewrite DbusMenuFacts.Event_unfold.
    destruct (od_lookup _ idx) as [item|] eqn:Hitem.
    + apply DbusMenuFacts.menu_entry_dom in Hitem.
      assert (item !! event_id = None) as ->; [|done].
      apply not_elem_of_dom. rewrite Hitem. by rewrite elem_of_list_to_set.
    + rewrite DbusMenuFacts.od_lookup_menu_when in Hitem.
      rewrite !elem_of_cons, elem_of_nil in Hidx.
      by destruct Hidx as [->|[->|[->|[]]]].
  - intros Hidx. rewrite DbusMenuFacts.Event_unfold.
    rewrite DbusMenuFacts.od_lookup_menu_when.
    rewrite !not_elem_of_cons in Hidx. destruct Hidx as (? & ? & ? & _).
    by rewrite !bool_decide_eq_false_2.
Qed.

Lemma Event_dispatch_witness :
  DbusMenu.Event DbusMenu.HIDE "clicked" (VInt 0) 0 DbusMenu.__init__ =
    Outcome (Ok tt) DbusMenu.__init__ [view_hide] ∧
  DbusMenu.Event DbusMenu.SHOW "x-tomate-poke" (VInt 0) 0 DbusMenu.__init__ =
    Outcome (Ok tt) DbusMenu.__init__ [] ∧
  DbusMenu.Event 9999 "clicked" (VInt 0) 0 DbusMenu.__init__ =
    Outcome (Raise KeyError) DbusMenu.__init__ [].
Proof.
  split_and!.
  - exact (proj1 (proj2 (Event_dispatch DbusMenu.__init__ 0 "hovered"
                           (VInt 0) 0 DbusMenu.reachable_init))).
  - pose proof (Event_dispatch DbusMenu.__init__ DbusMenu.SHOW
                  "x-tomate-poke" (VInt 0) 0 DbusMenu.reachable_init)
      as (_ & _ & _ & Hignored & _).
    apply Hignored; apply (bool_decide_unpack _); by vm_compute.
  - pose proof (Event_dispatch DbusMenu.__init__ 9999 "clicked"
                  (VInt 0) 0 DbusMenu.reachable_init)
      as (_ & _ & _ & _ & Hraise).
    apply Hraise. apply (bool_decide_unpack _). by vm_compute.
Defined.

(** ** Rendered properties *)

Section render.
Import DbusMenu.

Lemma dict_of_keys_dom item names rendered :
  dict_of_keys item names = Ok rendered →
  dom rendered = list_to_set names.
Proof.
  revert rendered. induction names as [|k names IH]; intros rendered; simpl.
  - intros [= <-]. apply dom_empty_L.
  - unfold getitem. destruct (item !! k) as [v|]; simpl; [|done].
    destruct (dict_of_keys item names) as [d|]; simpl; [|done].
    intros [= <-]. rewrite dom_insert_L. by rewrite (IH d).
Qed.

Lemma dict_of_keys_Ok item names :
  list_to_set names ⊆ dom item →
  ∃ rendered, dict_of_keys item names = Ok rendered.
Proof.
  induction names as [|k names IH]; simpl; intros Hdom; [by eexists|].
  assert (is_Some (item !! k)) as [v Hv].
  { apply elem_of_dom. set_solver. }
  destruct IH as [d Hd]; [set_solver|].
  unfold getitem. rewrite Hv. simpl. rewrite Hd. simpl. by eexists.
Qed.

Lemma _render_item_names item properties :
  _render_item item properties =
    dict_of_keys item (rendered_names properties).
Proof. by destruct properties as [[|]|]. Qed.

Lemma attributes_in_entry_keys idx :
  list_to_set DbusMenuItem.ATTRIBUTES ⊆@{gset string}
    list_to_set (DbusMenu.entry_keys idx).
Proof.
  intros k. rewrite !elem_of_list_to_set. intros Hk.
  unfold DbusMenu.entry_keys. by right.
Qed.

(** An entry of a menu the methods lead to renders without an error
    under a filter that names attributes only. *)
Lemma _render_item_Ok v idx item properties :
  od_lookup (items (DbusMenu.menu_when v)) idx = Some item →
  (∀ names, properties = Some names → names ⊆ DbusMenuItem.ATTRIBUTES) →
  ∃ rendered, _render_item item properties = Ok rendered.
Proof.
  intros Hitem Hnames. rewrite _render_item_names.
  apply dict_of_keys_Ok.
  rewrite (DbusMenuFacts.menu_entry_dom _ _ _ Hitem).
  etrans; [|apply attributes_in_entry_keys].
  destruct properties as [[|k names]|]; try done.
  intros x. unfold rendered_names. rewrite !elem_of_list_to_set.
  by apply Hnames.
Qed.

Lemma group_properties_spec items properties ids :
  (∀ idx item, od_lookup items idx = Some item →
     ∃ rendered, _render_item item properties = Ok rendered) →
  ∃ result,
    group_properties items properties ids = Ok result ∧
    result.*1 = filter (λ idx, is_Some (od_lookup items idx)) ids ∧
    Forall (λ p, ∃ item, od_lookup items p.1 = Some item ∧
                         _render_item item properties = Ok p.2) result.
Proof.
  intros Hrender. induction ids as [|idx ids (rest & IH & Hids & Hrest)].
  { by exists []. }
  simpl. unfold od_contains. case_bool_decide as Hin.
  - destruct Hin as [item Hitem].
    destruct (Hrender _ _ Hitem) as [rendered Hrendered].
    exists ((idx, rendered) :: rest). unfold od_getitem.
    rewrite Hitem. simpl. rewrite Hrendered. simpl. rewrite IH. simpl.
    split_and!; [done| |].
    + rewrite filter_cons_True by eauto. simpl. by f_equal.
    + constructor; [|done]. by exists item.
  - exists rest. by rewrite filter_cons_False.
Qed.
End render.

Lemma dom_only_attributes rendered :
  dom rendered = list_to_set DbusMenuItem.ATTRIBUTES →
  only_attributes rendered.
Proof.
  intros Hdom. split; [rewrite Hdom; reflexivity|].
  split; apply not_elem_of_dom; rewrite Hdom, elem_of_list_to_set;
    apply (bool_decide_unpack _); by vm_compute.
Qed.



(** C9, as stated, fails: with a filter that names a property the
    entries do not store, here "icon-name", the call raises [KeyError]
    for an id the menu has. *)
Lemma GetGroupProperties_unknown_name_raises :
  returned (DbusMenu.GetGroupProperties [DbusMenu.SHOW] (Some ["icon-name"])
              DbusMenu.__init__) = Raise KeyError ∧
  ¬ ∃ result,
      returned (DbusMenu.GetGroupProperties [DbusMenu.SHOW]
                  (Some ["icon-name"]) DbusMenu.__init__) = Ok result.
Proof. split; [reflexivity|]. by intros [result Hresult]. Qed.

(** C9, amended. On every menu the methods lead to, and for every filter
    that is absent, empty or names attributes of
    [DbusMenuItem.ATTRIBUTES] only, [GetGroupProperties] raises nothing,
    changes nothing and answers with one pair (id, rendered properties)
    for each id of [ids] that the menu has, in the order of [ids]; the
    ids the menu does not have are left out. *)
Theorem GetGroupProperties_drops_unknown_ids
    (self : DbusMenu.t) (ids : list Z)
    (property_names : option (list string)) :
  DbusMenu.reachable self →
  (∀ names, property_names = Some names →
            names ⊆ DbusMenuItem.ATTRIBUTES) →
  ∃ result,
    DbusMenu.GetGroupProperties ids property_names self =
      Outcome (Ok result) self [] ∧
    result.*1 =
      filter (λ idx, is_Some (od_lookup (DbusMenu.items self) idx)) ids ∧
    Forall (λ p, ∃ item,
              od_lookup (DbusMenu.items self) p.1 = Some item ∧
              DbusMenu._render_item item property_names = Ok p.2)
           result.
Proof.
  intros Hr Hnames.
  destruct (DbusMenuFacts.reachable_menu_when self Hr) as [v ->].
  destruct (group_properties_spec
              (DbusMenu.items (DbusMenu.menu_when v)) property_names ids)
    as (result & Hresult & Hids & Hall).
  { intros idx item Hitem. by eapply _render_item_Ok. }
  exists result. split_and!; [|done..].
  unfold DbusMenu.GetGroupProperties, reading. by rewrite Hresult.
Qed.

Lemma GetGroupProperties_drops_unknown_ids_witness :
  ∃ result,
    DbusMenu.GetGroupProperties [DbusMenu.HIDE; 9999; 0] (Some ["label"])
        DbusMenu.__init__ =
      Outcome (Ok result) DbusMenu.__init__ [] ∧
    result.*1 = [DbusMenu.HIDE; 0].
Proof.
  destruct (GetGroupProperties_drops_unknown_ids DbusMenu.__init__
              [DbusMenu.HIDE; 9999; 0] (Some ["label"])
              DbusMenu.reachable_init)
    as (result & Hresult & Hids & _).
  - intros names [= <-]. apply (bool_decide_unpack _). by vm_compute.
  - exists result. split; [exact Hresult|]. rewrite Hids. reflexivity.
Defined.

(** C10. On every menu the methods lead to, with a filter that is absent
    or empty: [GetLayout] on an entry of the menu, [GetGroupProperties]
    on any list of ids and the signal of [update_menu] all come with
    dictionaries whose keys are the eight attributes of
    [DbusMenuItem.ATTRIBUTES] and no other; "clicked" and "submenu" are in
    none of them. *)
Theorem rendered_properties_only_attributes
    (self : DbusMenu.t) (property_names : option (list string))
    (parent_id recursion_depth : Z) (ids : list Z) (is_visible : bool) :
  DbusMenu.reachable self →
  property_names = None ∨ property_names = Some [] →
  (parent_id ∈ [0; DbusMenu.SHOW; DbusMenu.HIDE] →
   ∃ revision tree,
     returned (DbusMenu.GetLayout parent_id recursion_depth
                 property_names self) = Ok (revision, tree) ∧
     Forall only_attributes (layout_properties tree)) ∧
  (∃ result,
     returned (DbusMenu.GetGroupProperties ids property_names self) =
       Ok result ∧
     Forall only_attributes result.*2) ∧
  (∃ update_props,
     emitted (DbusMenu.update_menu is_visible self) =
       [ItemsPropertiesUpdated update_props []] ∧
     Forall only_attributes update_props.*2).
Proof.
  intros Hr Hnames.
  destruct (DbusMenuFacts.reachable_menu_when self Hr) as [v ->].
  assert (∀ names, property_names = Some names →
                   names ⊆ DbusMenuItem.ATTRIBUTES) as Hsubset.
  { intros names ->. destruct Hnames as [?|[= ->]]; [done|].
    apply list_subseteq_nil. }
  split_and!.
  - rewrite !elem_of_cons, elem_of_nil.
    intros [->|[->|[->|[]]]]; destruct Hnames as [->| ->], v;
      do 2 eexists; (split; [reflexivity|]);
      repeat constructor; by apply dom_only_attributes.
  - destruct (group_properties_spec
                (DbusMenu.items (DbusMenu.menu_when v)) property_names ids)
      as (result & Hresult & _ & Hall).
    { intros idx item Hitem. by eapply _render_item_Ok. }
    exists result. unfold DbusMenu.GetGroupProperties, reading. simpl.
    split; [done|].
    apply Forall_fmap. eapply Forall_impl; [exact Hall|].
    intros [idx rendered] (item & _ & Hrendered). simpl in *.
    apply dom_only_attributes.
    rewrite _render_item_names in Hrendered.
    apply dict_of_keys_dom in Hrendered. rewrite Hrendered.
    by destruct Hnames as [->| ->].
  - destruct v, is_visible; eexists; (split; [reflexivity|]);
      repeat constructor; by apply dom_only_attributes.
Qed.

Lemma rendered_properties_only_attributes_witness :
  ∃ revision tree,
    returned (DbusMenu.GetLayout 0 (-1) (Some []) DbusMenu.__init__) =
      Ok (revision, tree) ∧
    Forall only_attributes (layout_properties tree).
Proof.
  pose proof (rendered_properties_only_attributes DbusMenu.__init__
                (Some []) 0 (-1) [] true DbusMenu.reachable_init
                (or_intror eq_refl)) as (Hlayout & _).
  apply Hlayout. apply (bool_decide_unpack _). by vm_compute.
Defined.

(** ** StatusNotifierItemPlugin *)

(** [update_menu] emits no signal about the status, on any menu. *)
Lemma update_menu_no_status_notification is_visible (menu : DbusMenu.t) :
  List.filter is_status_notification
    (emitted (DbusMenu.update_menu is_visible menu)) = [].
Proof.
  unfold DbusMenu.update_menu, DbusMenu.set_visible, mbind, M_bind, bind,
    reading, modify, emit.
  simpl. repeat (case_match; simpl; try done).
Qed.

(** C8. With the plugin activated and the status of the item Passive,
    the start of a session followed by its end raises nothing, leaves
    the status Passive, and the signals about the status emitted in
    between are two: Active, then Passive. *)
Theorem session_start_then_end_notifies_twice
    (self : StatusNotifierItemPlugin.t) :
  StatusNotifierItemPlugin.is_activated self = true →
  StatusNotifierItem.status (StatusNotifierItemPlugin.status_item self) =
    StatusNotifierItemStatus.Passive →
  let r := (StatusNotifierItemPlugin.on_session_start;;
            StatusNotifierItemPlugin.on_session_stop) self in
  returned r = Ok tt ∧
  StatusNotifierItem.status
    (StatusNotifierItemPlugin.status_item (final r)) =
    StatusNotifierItemStatus.Passive ∧
  List.filter is_status_notification (emitted r) =
    [ StatusNotifierItem.status_changed StatusNotifierItemStatus.Active;
      StatusNotifierItem.status_changed StatusNotifierItemStatus.Passive ].
Proof.
  destruct self as [a [c s i d] menu]. simpl. intros -> ->.
  pose proof (update_menu_no_status_notification true menu) as Hmenu.
  unfold StatusNotifierItemPlugin.on_session_start,
    StatusNotifierItemPlugin.on_session_stop,
    StatusNotifierItemPlugin.change_status,
    StatusNotifierItemPlugin.change_visibility,
    StatusNotifierItemPlugin.on_status_item,
    StatusNotifierItemPlugin.on_dbus_menu,
    suppress_errors, mbind, M_bind, bind.
  simpl.
  destruct (DbusMenu.update_menu true menu) as [[[]|e] menu' trace];
    simpl in *; by rewrite List.filter_app, Hmenu.
Qed.

Lemma session_start_then_end_notifies_twice_witness :
  let activated :=
    final (StatusNotifierItemPlugin.activate false
             StatusNotifierItemPlugin.configure) in
  let r := (StatusNotifierItemPlugin.on_session_start;;
            StatusNotifierItemPlugin.on_session_stop) activated in
  StatusNotifierItem.status
    (StatusNotifierItemPlugin.status_item (final r)) = "Passive" ∧
  List.filter is_status_notification (emitted r) =
    [ StatusNotifierItem.status_changed "Active";
      StatusNotifierItem.status_changed "Passive" ].
Proof.
  pose proof (session_start_then_end_notifies_twice
                (final (StatusNotifierItemPlugin.activate false
                          StatusNotifierItemPlugin.configure))
                eq_refl eq_refl) as (_ & Hstatus & Hsignals).
  split; [exact Hstatus|exact Hsignals].
Defined.

(** ** The name of the icon *)

Lemma zero_fill_two_digits n :
  (0 ≤ n ≤ 100)%Z → zero_fill 2 "" (pretty n) = two_digits n.
Proof.
  intros Hn.
  assert (Forall (λ n : Z, zero_fill 2 "" (pretty n) = two_digits n)
            (seqZ 0 101)) as Hall.
  { apply (bool_decide_unpack _). by vm_compute. }
  rewrite Forall_forall in Hall. apply Hall. apply elem_of_seqZ. lia.
Qed.

(** Below the point, the rounded number is at most half a unit away. *)
Lemma round_half_even_nearest (m : positive) (e : Z) :
  (e < 0)%Z →
  let d := (2 ^ (- e))%Z in
  let n := round_half_even m e in
  (0 < d ∧ 0 ≤ n ∧ 2 * Z.abs (Z.pos m - n * d) ≤ d)%Z.
Proof.
  intros He d n. subst n. unfold round_half_even.
  rewrite bool_decide_eq_false_2 by lia. fold d.
  assert (0 < d)%Z as Hd by (apply Z.pow_pos_nonneg; lia).
  assert (d ≠ 0)%Z as Hd0 by lia.
  pose proof (Z.div_mod (Z.pos m) d Hd0) as Hdm.
  pose proof (Z.mod_pos_bound (Z.pos m) d Hd) as Hr.
  assert (0 ≤ Z.pos m `div` d)%Z as Hq by (apply Z.div_pos; lia).
  set (q := (Z.pos m `div` d)%Z) in *. set (r := (Z.pos m `mod` d)%Z) in *.
  clearbody q r d.
  assert (Z.pos m - q * d = r)%Z as Hlow by lia.
  assert (Z.pos m - (q + 1) * d = r - d)%Z as Hhigh by lia.
  simpl. destruct (2 * r ?= d)%Z eqn:Hc.
  - apply Z.compare_eq in Hc.
    destruct (Z.even q); rewrite ?Hlow, ?Hhigh; lia.
  - rewrite Z.compare_lt_iff in Hc. rewrite Hlow. lia.
  - rewrite Z.compare_gt_iff in Hc. rewrite Hhigh. lia.
Qed.

(** On a tie the rounded number is the even one. *)
Lemma round_half_even_tie (m : positive) (e : Z) :
  (e < 0)%Z →
  (2 * Z.abs (Z.pos m - round_half_even m e * 2 ^ (- e)) = 2 ^ (- e))%Z →
  Z.even (round_half_even m e) = true.
Proof.
  intros He. unfold round_half_even.
  rewrite bool_decide_eq_false_2 by lia.
  assert (0 < 2 ^ (- e))%Z as Hd by (apply Z.pow_pos_nonneg; lia).
  set (d := (2 ^ (- e))%Z) in *.
  assert (d ≠ 0)%Z as Hd0 by lia.
  pose proof (Z.div_mod (Z.pos m) d Hd0) as Hdm.
  pose proof (Z.mod_pos_bound (Z.pos m) d Hd) as Hr.
  set (q := (Z.pos m `div` d)%Z) in *. set (r := (Z.pos m `mod` d)%Z) in *.
  clearbody q r d.
  assert (Z.pos m - q * d = r)%Z as Hlow by lia.
  assert (Z.pos m - (q + 1) * d = r - d)%Z as Hhigh by lia.
  simpl. destruct (2 * r ?= d)%Z eqn:Hc.
  - destruct (Z.even q) eqn:Hq; [done|]. intros _.
    rewrite Z.add_1_r, Z.even_succ, <- Z.negb_even. by rewrite Hq.
  - rewrite Z.compare_lt_iff in Hc. rewrite Hlow. lia.
  - rewrite Z.compare_gt_iff in Hc. rewrite Hhigh. lia.
Qed.

(** C7, as stated, fails: the negative zero is a float of [0,100], it
    is equal to 0, and its icon is "tomate--0", not "tomate-00": the
    sign takes one of the two characters. *)
Lemma icon_name_negative_zero :
  float_value neg_zero = Some 0%Q ∧
  StatusNotifierItemPlugin.icon_name neg_zero = "tomate--0" ∧
  StatusNotifierItemPlugin.icon_name neg_zero ≠ "tomate-00".
Proof. split_and!; [reflexivity|reflexivity|discriminate]. Qed.

(** C7, amended. For every float [percent] of [0,100] other than the
    negative zero, the name of the icon is "tomate-" followed by a whole
    number [n] of [0,100] at most half a unit away from [percent], the
    even one when [percent] is half way between two, written on two
    digits below 100 and as "100" for 100. So 99.6 gives "tomate-100"
    and 0 gives "tomate-00"; 0.5 gives "tomate-00", 1.5 and 2.5 give
    "tomate-02"; nothing is clamped: 250 gives "tomate-250". *)
Theorem icon_name_rounds_and_pads :
  (∀ (percent : float) (q : Q),
     float_value percent = Some q →
     Prim2SF percent ≠ S754_zero true →
     (0 <= q)%Q → (q <= 100)%Q →
     ∃ n : Z,
       (0 ≤ n ≤ 100)%Z ∧
       (Qabs (q - inject_Z n) <= 1 # 2)%Q ∧
       ((Qabs (q - inject_Z n) == 1 # 2)%Q → Z.even n = true) ∧
       StatusNotifierItemPlugin.icon_name percent =
         "tomate-" +:+ two_digits n) ∧
  StatusNotifierItemPlugin.icon_name 0x1.8e66666666666p+6%float =
    "tomate-100" ∧
  StatusNotifierItemPlugin.icon_name 0%float = "tomate-00" ∧
  StatusNotifierItemPlugin.icon_name 0.5%float = "tomate-00" ∧
  StatusNotifierItemPlugin.icon_name 1.5%float = "tomate-02" ∧
  StatusNotifierItemPlugin.icon_name 2.5%float = "tomate-02" ∧
  StatusNotifierItemPlugin.icon_name 250%float = "tomate-250".
Proof.
  split; [|by split_and!].
  intros percent q.
  unfold float_value, StatusNotifierItemPlugin.icon_name, format_02_0f.
  destruct (Prim2SF percent) as [[]| | |s m e]; try done.
  - intros [= <-] _ _ _. exists 0%Z. by split_and!.
  - intros [= <-] _ Hq0 Hq100.
    assert (0 < 2 ^ (- e) ∨ 0 ≤ e)%Z as Hd.
    { destruct (decide (0 ≤ e)%Z); [by right|left].
      apply Z.pow_pos_nonneg; lia. }
    destruct s.
    { exfalso. revert Hq0. case_bool_decide; unfold Qle; simpl; [lia|].
      destruct Hd as [Hd|]; [|done]. lia. }
    exists (round_half_even m e). simpl.
    case_bool_decide as He.
    + unfold round_half_even. rewrite bool_decide_eq_true_2 by done.
      unfold Qle in Hq0, Hq100. simpl in Hq0, Hq100.
      assert (0 < 2 ^ e)%Z by (apply Z.pow_pos_nonneg; lia).
      split_and!; [nia|lia| | |].
      * apply Qabs_Qle_condition. unfold Qle, Qminus, Qplus, Qopp. simpl. lia.
      * unfold Qeq, Qabs, Qminus, Qplus, Qopp. simpl. lia.
      * by rewrite zero_fill_two_digits by nia.
    + assert (e < 0)%Z as Hneg by lia.
      destruct (round_half_even_nearest m e Hneg) as (Hdpos & Hn & Hnear).
      pose proof (round_half_even_tie m e Hneg) as Htie.
      unfold Qle in Hq0, Hq100. simpl in Hq0, Hq100.
      rewrite Z2Pos.id in Hq0, Hq100 by done.
      set (n := round_half_even m e) in *. set (d := (2 ^ (- e))%Z) in *.
      assert (n ≤ 100)%Z as Hn100 by nia.
      split_and!; [done..| | |].
      * apply Qabs_Qle_condition. unfold Qle, Qminus, Qplus, Qopp. simpl.
        rewrite Z2Pos.id by done. fold d. lia.
      * unfold Qeq, Qabs, Qminus, Qplus, Qopp. simpl.
        rewrite Z2Pos.id by done. fold d. intros Heq. apply Htie. lia.
      * by rewrite zero_fill_two_digits.
Qed.

Lemma icon_name_rounds_and_pads_witness :
  ∃ n : Z,
    (0 ≤ n ≤ 100)%Z ∧
    (Qabs ((5629499534213120 # 2251799813685248) - inject_Z n) <= 1 # 2)%Q ∧
    ((Qabs ((5629499534213120 # 2251799813685248) - inject_Z n) == 1 # 2)%Q →
     Z.even n = true) ∧
    StatusNotifierItemPlugin.icon_name 2.5%float =
      "tomate-" +:+ two_digits n.
Proof.
  apply (proj1 icon_name_rounds_and_pads 2.5%float
           (5629499534213120 # 2251799813685248)).
  - reflexivity.
  - vm_compute. discriminate.
  - vm_compute. discriminate.
  - vm_compute. discriminate.
Defined.

(** * Further properties *)

(** ** Rendering *)

Lemma dict_of_keys_subseteq item names rendered :
  DbusMenu.dict_of_keys item names = Ok rendered → rendered ⊆ item.
Proof.
  revert rendered. induction names as [|k names IH]; intros rendered; simpl.
  - intros [= <-]. apply map_empty_subseteq.
  - unfold getitem. destruct (item !! k) as [v|] eqn:Hk; simpl; [|done].
    destruct (DbusMenu.dict_of_keys item names) as [d|]; simpl; [|done].
    intros [= <-]. apply insert_subseteq_l; [done|]. by apply IH.
Qed.

Lemma dict_of_keys_Raise item names e :
  DbusMenu.dict_of_keys item names = Raise e →
  e = KeyError ∧ ∃ k, k ∈ names ∧ item !! k = None.
Proof.
  induction names as [|k names IH]; simpl; [done|].
  unfold getitem. destruct (item !! k) as [v|] eqn:Hk; simpl.
  - destruct (DbusMenu.dict_of_keys item names) as [d|e'] eqn:Hd;
      simpl; [done|].
    intros [= <-]. destruct (IH eq_refl) as (-> & k' & Hin & Hnone).
    split; [done|]. exists k'. split; [by right|done].
  - intros [= <-]. split; [done|]. exists k. split; [by left|done].
Qed.

Lemma _render_item_missing_key item properties k :
  k ∈ DbusMenu.rendered_names properties → item !! k = None →
  DbusMenu._render_item item properties = Raise KeyError.
Proof.
  rewrite _render_item_names. intros Hk Hnone.
  destruct (DbusMenu.dict_of_keys item _) as [d|e] eqn:Hd.
  - exfalso.
    pose proof (dict_of_keys_dom _ _ _ Hd) as Hdom.
    pose proof (dict_of_keys_subseteq _ _ _ Hd) as Hsub.
    assert (k ∈ dom d) as Hkd.
    { rewrite Hdom. by apply elem_of_list_to_set. }
    apply elem_of_dom in Hkd as [v Hv].
    eapply lookup_weaken in Hv; [|exact Hsub]. congruence.
  - by destruct (dict_of_keys_Raise _ _ _ Hd) as [-> _].
Qed.

(** X1. [_render_item] on any entry: when the entry has every name asked
    for (the eight attributes when the filter is absent or empty), the
    answer has these names as its keys, each with the value of the entry;
    when the entry lacks one of them, the call raises [KeyError]. *)
Theorem _render_item_restricts
    (item : gmap string value) (properties : option (list string)) :
  (list_to_set (DbusMenu.rendered_names properties) ⊆ dom item →
   ∃ rendered,
     DbusMenu._render_item item properties = Ok rendered ∧
     dom rendered = list_to_set (DbusMenu.rendered_names properties) ∧
     rendered ⊆ item) ∧
  (∀ k, k ∈ DbusMenu.rendered_names properties → item !! k = None →
        DbusMenu._render_item item properties = Raise KeyError).
Proof.
  split.
  - rewrite _render_item_names.
    intros Hdom. destruct (dict_of_keys_Ok _ _ Hdom) as [rendered Hr].
    exists rendered. split_and!; [done| |].
    + by eapply dict_of_keys_dom.
    + by eapply dict_of_keys_subseteq.
  - intros k. apply _render_item_missing_key.
Qed.

Lemma _render_item_restricts_witness :
  (∃ rendered,
     DbusMenu._render_item DbusMenu.root_entry (Some ["label"; "visible"]) =
       Ok rendered ∧
     dom rendered = list_to_set ["label"; "visible"] ∧
     rendered ⊆ DbusMenu.root_entry) ∧
  DbusMenu._render_item DbusMenu.root_entry (Some ["label"; "icon-name"]) =
    Raise KeyError.
Proof.
  split.
  - apply (proj1 (_render_item_restricts DbusMenu.root_entry
                    (Some ["label"; "visible"]))).
    apply (bool_decide_unpack _). by vm_compute.
  - apply (proj2 (_render_item_restricts DbusMenu.root_entry
                    (Some ["label"; "icon-name"])) "icon-name").
    + apply (bool_decide_unpack _). by vm_compute.
    + reflexivity.
Defined.

(** ** GetLayout and GetProperty *)

Lemma od_lookup_absent v idx :
  idx ∉ [0; DbusMenu.SHOW; DbusMenu.HIDE] →
  od_lookup (DbusMenu.items (DbusMenu.menu_when v)) idx = None.
Proof.
  intros Hidx. rewrite DbusMenuFacts.od_lookup_menu_when.
  rewrite !not_elem_of_cons in Hidx. destruct Hidx as (? & ? & ? & _).
  by rewrite !bool_decide_eq_false_2.
Qed.

Lemma od_lookup_present v idx :
  idx ∈ [0; DbusMenu.SHOW; DbusMenu.HIDE] →
  ∃ item, od_lookup (DbusMenu.items (DbusMenu.menu_when v)) idx = Some item.
Proof.
  rewrite !elem_of_cons, elem_of_nil. intros [->|[->|[->|[]]]]; by eexists.
Qed.

(** X2. [GetLayout] with a filter that is not empty and names attributes
    only, on an entry of the menu: the answer carries the revision 0 and
    the entry with, as children, Show and Hide in this order under the
    root and nothing under Show or Hide; the children have no children;
    every dictionary of the answer has the names of the filter as its keys
    and no other. The depth changes nothing. *)
Theorem GetLayout_filtered
    (self : DbusMenu.t) (parent_id recursion_depth : Z)
    (names : list string) :
  DbusMenu.reachable self →
  parent_id ∈ [0; DbusMenu.SHOW; DbusMenu.HIDE] →
  names ≠ [] →
  names ⊆ DbusMenuItem.ATTRIBUTES →
  ∃ rendered children,
    DbusMenu.GetLayout parent_id recursion_depth (Some names) self =
      Outcome (Ok (0, Layout parent_id rendered children)) self [] ∧
    layout_id <$> children = children_of parent_id ∧
    Forall (λ child, layout_children child = []) children ∧
    Forall (λ p, dom p = list_to_set names)
           (layout_properties (Layout parent_id rendered children)).
Proof.
  intros Hr Hparent Hne Hnames.
  destruct (DbusMenuFacts.reachable_menu_when self Hr) as [v ->].
  assert (∀ idx item,
            od_lookup (DbusMenu.items (DbusMenu.menu_when v)) idx = Some item →
            ∃ rendered, DbusMenu._render_item item (Some names) = Ok rendered ∧
                        dom rendered = list_to_set names) as Hrender.
  { intros idx item Hitem.
    destruct (_render_item_Ok v idx item (Some names) Hitem) as [r Hrendered].
    { by intros ? [= <-]. }
    exists r. split; [done|].
    rewrite _render_item_names in Hrendered.
    apply dict_of_keys_dom in Hrendered. rewrite Hrendered.
    by destruct names. }
  destruct (Hrender 0 _ eq_refl) as (r0 & Hr0 & Hd0).
  destruct (Hrender 1 _ eq_refl) as (r1 & Hr1 & Hd1).
  destruct (Hrender 2 _ eq_refl) as (r2 & Hr2 & Hd2).
  assert (od_lookup (DbusMenu.items (DbusMenu.menu_when v)) 0 =
            Some DbusMenu.root_entry) as H0 by reflexivity.
  assert (od_lookup (DbusMenu.items (DbusMenu.menu_when v)) 1 =
            Some (DbusMenu.leaf_entry "Show" (negb v) lambda_view_show))
    as H1 by reflexivity.
  assert (od_lookup (DbusMenu.items (DbusMenu.menu_when v)) 2 =
            Some (DbusMenu.leaf_entry "Hide" v lambda_view_hide))
    as H2 by reflexivity.
  assert (DbusMenu.leaf_entry "Show" (negb v) lambda_view_show !! "submenu"
            = None) as Hs1 by (by destruct v).
  assert (DbusMenu.leaf_entry "Hide" v lambda_view_hide !! "submenu"
            = None) as Hs2 by (by destruct v).
  assert (DbusMenu.root_entry !! "submenu" = Some (VList [1; 2]))
    as Hs0 by reflexivity.
  unfold DbusMenu.GetLayout, reading, od_getitem, DbusMenu._render_submenu.
  rewrite !elem_of_cons, elem_of_nil in Hparent.
  destruct Hparent as [->|[->|[->|[]]]].
  - exists r0, [Layout 1 r1 []; Layout 2 r2 []].
    split_and!; [|done|by repeat constructor|by repeat constructor].
    f_equal. rewrite H0. cbn [mbind result_bind]. rewrite Hr0, Hs0.
    cbn [mbind result_bind mapM mret result_ret]. unfold od_getitem.
    rewrite H1, H2. cbn [mbind result_bind]. by rewrite Hr1, Hr2.
  - exists r1, []. split_and!; [|done|done|by repeat constructor].
    f_equal. unfold DbusMenu.SHOW. rewrite H1. cbn [mbind result_bind].
    by rewrite Hr1, Hs1.
  - exists r2, []. split_and!; [|done|done|by repeat constructor].
    f_equal. unfold DbusMenu.HIDE. rewrite H2. cbn [mbind result_bind].
    by rewrite Hr2, Hs2.
Qed.

Lemma GetLayout_filtered_witness :
  ∃ rendered children,
    DbusMenu.GetLayout 0 3 (Some ["label"; "visible"]) DbusMenu.__init__ =
      Outcome (Ok (0, Layout 0 rendered children)) DbusMenu.__init__ [] ∧
    layout_id <$> children = children_of 0 ∧
    Forall (λ child, layout_children child = []) children ∧
    Forall (λ p, dom p = list_to_set ["label"; "visible"])
           (layout_properties (Layout 0 rendered children)).
Proof.
  apply (GetLayout_filtered DbusMenu.__init__ 0 3 ["label"; "visible"]
           DbusMenu.reachable_init).
  - apply (bool_decide_unpack _). by vm_compute.
  - discriminate.
  - apply (bool_decide_unpack _). by vm_compute.
Defined.

(** X3. [GetLayout] on a parent that is not in the menu raises [KeyError],
    whatever the depth and the filter: there is no default tree. *)
Theorem GetLayout_unknown_parent_raises
    (self : DbusMenu.t) (parent_id recursion_depth : Z)
    (property_names : option (list string)) :
  DbusMenu.reachable self →
  parent_id ∉ [0; DbusMenu.SHOW; DbusMenu.HIDE] →
  DbusMenu.GetLayout parent_id recursion_depth property_names self =
    Outcome (Raise KeyError) self [].
Proof.
  intros Hr Hparent.
  destruct (DbusMenuFacts.reachable_menu_when self Hr) as [v ->].
  unfold DbusMenu.GetLayout, reading, od_getitem.
  by rewrite (od_lookup_absent v parent_id Hparent).
Qed.

Lemma GetLayout_unknown_parent_raises_witness :
  DbusMenu.GetLayout 7 (-1) (Some []) DbusMenu.__init__ =
    Outcome (Raise KeyError) DbusMenu.__init__ [].
Proof.
  apply (GetLayout_unknown_parent_raises DbusMenu.__init__ 7 (-1) (Some [])
           DbusMenu.reachable_init).
  apply (bool_decide_unpack _). by vm_compute.
Defined.

(** X4. [GetProperty] answers with the value stored under the name when the
    id is in the menu and the name is a key of its entry, and raises
    [KeyError] when the id is not in the menu or the entry has no such
    key; it changes nothing. *)
Theorem GetProperty_lookup
    (self : DbusMenu.t) (idx : Z) (name : string) :
  DbusMenu.reachable self →
  (idx ∈ [0; DbusMenu.SHOW; DbusMenu.HIDE] →
   name ∈ DbusMenu.entry_keys idx →
   ∃ item v,
     od_lookup (DbusMenu.items self) idx = Some item ∧
     item !! name = Some v ∧
     DbusMenu.GetProperty idx name self = Outcome (Ok v) self []) ∧
  (idx ∉ [0; DbusMenu.SHOW; DbusMenu.HIDE] ∨
   name ∉ DbusMenu.entry_keys idx →
   DbusMenu.GetProperty idx name self = Outcome (Raise KeyError) self []).
Proof.
  intros Hr. destruct (DbusMenuFacts.reachable_menu_when self Hr) as [v ->].
  unfold DbusMenu.GetProperty, reading, od_getitem, getitem. split.
  - intros Hidx Hname. destruct (od_lookup_present v idx Hidx) as [item Hitem].
    assert (is_Some (item !! name)) as [x Hx].
    { apply elem_of_dom.
      rewrite (DbusMenuFacts.menu_entry_dom _ _ _ Hitem).
      by apply elem_of_list_to_set. }
    exists item, x. rewrite Hitem. simpl. by rewrite Hx.
  - destruct (od_lookup _ idx) as [item|] eqn:Hitem; [|done].
    intros [Hidx|Hname].
    + by rewrite (od_lookup_absent v idx Hidx) in Hitem.
    + assert (item !! name = None) as Hnone.
      { apply not_elem_of_dom.
        rewrite (DbusMenuFacts.menu_entry_dom _ _ _ Hitem).
        by rewrite elem_of_list_to_set. }
      simpl. by rewrite Hnone.
Qed.

Lemma GetProperty_lookup_witness :
  (∃ item v,
     od_lookup (DbusMenu.items DbusMenu.__init__) DbusMenu.HIDE = Some item ∧
     item !! "label" = Some v ∧
     DbusMenu.GetProperty DbusMenu.HIDE "label" DbusMenu.__init__ =
       Outcome (Ok v) DbusMenu.__init__ []) ∧
  DbusMenu.GetProperty DbusMenu.HIDE "icon-name" DbusMenu.__init__ =
    Outcome (Raise KeyError) DbusMenu.__init__ [].
Proof.
  split.
  - apply (proj1 (GetProperty_lookup DbusMenu.__init__ DbusMenu.HIDE "label"
                    DbusMenu.reachable_init));
      apply (bool_decide_unpack _); by vm_compute.
  - apply (proj2 (GetProperty_lookup DbusMenu.__init__ DbusMenu.HIDE
                    "icon-name" DbusMenu.reachable_init)).
    right. apply (bool_decide_unpack _). by vm_compute.
Defined.

(** ** update_menu *)

(** X5. [update_menu] forgets what the flags were: after two calls the menu
    is as after the second alone. A second call with the same value
    leaves the menu as it is, and emits again the signal the first
    emitted. *)
Theorem update_menu_last_call_wins
    (self : DbusMenu.t) (first second : bool) :
  DbusMenu.reachable self →
  final (DbusMenu.update_menu second
           (final (DbusMenu.update_menu first self))) =
    final (DbusMenu.update_menu second self) ∧
  final (DbusMenu.update_menu first
           (final (DbusMenu.update_menu first self))) =
    final (DbusMenu.update_menu first self) ∧
  emitted (DbusMenu.update_menu first
             (final (DbusMenu.update_menu first self))) =
    emitted (DbusMenu.update_menu first self) ∧
  length (emitted (DbusMenu.update_menu first self)) = 1%nat.
Proof.
  intros Hr. destruct (DbusMenuFacts.reachable_menu_when self Hr) as [v ->].
  rewrite !DbusMenuFacts.update_menu_final.
  split_and!; [done|done|by destruct v, first|by destruct v, first].
Qed.

Lemma update_menu_last_call_wins_witness :
  final (DbusMenu.update_menu true
           (final (DbusMenu.update_menu false DbusMenu.__init__))) =
    final (DbusMenu.update_menu true DbusMenu.__init__).
Proof.
  exact (proj1 (update_menu_last_call_wins DbusMenu.__init__ false true
                  DbusMenu.reachable_init)).
Defined.

(** X6. Whatever is called on the menu, in any order: the revision stays 0,
    the entries stay the root, Show and Hide in this order, with their
    labels and their actions, and of Show and Hide one is visible and the
    other is not. *)
Theorem menu_invariant (self : DbusMenu.t) :
  DbusMenu.reachable self →
  DbusMenu.revision self = 0 ∧
  (DbusMenu.items self).*1 = [0; DbusMenu.SHOW; DbusMenu.HIDE] ∧
  ∃ root show hide (hide_visible : bool),
    DbusMenu.items self =
      [(0, root); (DbusMenu.SHOW, show); (DbusMenu.HIDE, hide)] ∧
    root !! "submenu" = Some (VList [DbusMenu.SHOW; DbusMenu.HIDE]) ∧
    show !! "label" = Some (VStr "Show") ∧
    hide !! "label" = Some (VStr "Hide") ∧
    show !! "clicked" = Some (VFun lambda_view_show) ∧
    hide !! "clicked" = Some (VFun lambda_view_hide) ∧
    show !! "visible" = Some (VBool (negb hide_visible)) ∧
    hide !! "visible" = Some (VBool hide_visible).
Proof.
  intros Hr. destruct (DbusMenuFacts.reachable_menu_when self Hr) as [v ->].
  split_and!; [done|done|].
  do 3 eexists. exists v. split; [reflexivity|].
  by destruct v.
Qed.

Lemma menu_invariant_witness :
  DbusMenu.revision
    (final (DbusMenu.invoke (DbusMenu.m_update_menu false)
              DbusMenu.__init__)) = 0.
Proof.
  exact (proj1 (menu_invariant _
                  (DbusMenu.reachable_invoke _ (DbusMenu.m_update_menu false)
                     DbusMenu.reachable_init))).
Defined.

(** ** Event *)

(** X7. [Event] on any menu, with any arguments: the menu is left as it
    was, no signal goes on the bus, and at most one call is made on the
    window; when it raises, nothing was called. *)
Theorem Event_only_calls_the_view
    (self : DbusMenu.t) (idx : Z) (event_id : string)
    (data : value) (timestamp : Z) :
  let r := DbusMenu.Event idx event_id data timestamp self in
  final r = self ∧
  (emitted r = [] ∨ emitted r = [view_show] ∨ emitted r = [view_hide]) ∧
  (returned r ≠ Ok tt → emitted r = []).
Proof.
  simpl. rewrite DbusMenuFacts.Event_unfold.
  destruct (od_lookup (DbusMenu.items self) idx) as [item|]; simpl.
  - destruct (item !! event_id) as [[| | | | | | |[]]|]; simpl;
      split_and!; naive_solver.
  - split_and!; naive_solver.
Qed.

(** ** GetGroupProperties *)

(** X8. When no id of the list is in the menu, and so for the empty list,
    the answer is the empty list, on any menu and with any filter: the
    filter is not looked at. *)
Theorem GetGroupProperties_no_known_id
    (self : DbusMenu.t) (ids : list Z)
    (property_names : option (list string)) :
  Forall (λ idx, od_lookup (DbusMenu.items self) idx = None) ids →
  DbusMenu.GetGroupProperties ids property_names self =
    Outcome (Ok []) self [].
Proof.
  intros Hids. unfold DbusMenu.GetGroupProperties, reading. f_equal.
  induction Hids as [|idx ids Hidx _ IH]; [done|].
  simpl. unfold od_contains. rewrite Hidx.
  rewrite bool_decide_eq_false_2; [done|]. by intros [? [=]].
Qed.

Lemma GetGroupProperties_no_known_id_witness :
  DbusMenu.GetGroupProperties [7; 9999] (Some ["icon-name"])
      DbusMenu.__init__ =
    Outcome (Ok []) DbusMenu.__init__ [].
Proof.
  apply GetGroupProperties_no_known_id.
  repeat constructor.
Defined.

Lemma group_properties_cons_absent items property_names idx ids :
  od_lookup items idx = None →
  DbusMenu.group_properties items property_names (idx :: ids) =
    DbusMenu.group_properties items property_names ids.
Proof.
  intros Hidx. simpl. unfold od_contains. rewrite Hidx.
  rewrite bool_decide_eq_false_2; [done|]. by intros [? [=]].
Qed.

Lemma group_properties_cons_raise items property_names idx ids item e :
  od_lookup items idx = Some item →
  DbusMenu._render_item item property_names = Raise e →
  DbusMenu.group_properties items property_names (idx :: ids) = Raise e.
Proof.
  intros Hidx Hitem. simpl. unfold od_contains, od_getitem. rewrite Hidx.
  rewrite bool_decide_eq_true_2 by eauto. simpl. by rewrite Hitem.
Qed.

(** X9. With a filter that names something no entry stores, the call raises
    [KeyError] as soon as one id of the list is in the menu. *)
Theorem GetGroupProperties_unknown_name
    (self : DbusMenu.t) (ids : list Z) (names : list string) (k : string) :
  DbusMenu.reachable self →
  k ∈ names →
  k ∉ "clicked" :: "submenu" :: DbusMenuItem.ATTRIBUTES →
  Exists (λ idx, idx ∈ [0; DbusMenu.SHOW; DbusMenu.HIDE]) ids →
  DbusMenu.GetGroupProperties ids (Some names) self =
    Outcome (Raise KeyError) self [].
Proof.
  intros Hr Hk Hnot Hids.
  destruct (DbusMenuFacts.reachable_menu_when self Hr) as [v ->].
  unfold DbusMenu.GetGroupProperties, reading. f_equal.
  assert (∀ idx item,
            od_lookup (DbusMenu.items (DbusMenu.menu_when v)) idx = Some item →
            DbusMenu._render_item item (Some names) = Raise KeyError)
    as Hraise.
  { intros idx item Hitem.
    apply (_render_item_missing_key item (Some names) k).
    - destruct names; [by apply elem_of_nil in Hk|done].
    - apply not_elem_of_dom.
      rewrite (DbusMenuFacts.menu_entry_dom _ _ _ Hitem).
      rewrite elem_of_list_to_set. unfold DbusMenu.entry_keys.
      intros [->|Hin]%elem_of_cons; apply Hnot.
      + case_bool_decide; [by right; left|by left].
      + by do 2 right. }
  induction ids as [|idx ids IH]; [by apply Exists_nil in Hids|].
  destruct (od_lookup (DbusMenu.items (DbusMenu.menu_when v)) idx)
    as [item|] eqn:Hitem.
  - by rewrite (group_properties_cons_raise _ _ _ _ _ _ Hitem
                  (Hraise _ _ Hitem)).
  - rewrite (group_properties_cons_absent _ _ _ _ Hitem).
    apply IH. apply Exists_cons in Hids as [Hidx|]; [|done].
    destruct (od_lookup_present v idx Hidx) as [? ?]. congruence.
Qed.

Lemma GetGroupProperties_unknown_name_witness :
  DbusMenu.GetGroupProperties [9999; DbusMenu.HIDE] (Some ["label"; "shortcut"])
      DbusMenu.__init__ =
    Outcome (Raise KeyError) DbusMenu.__init__ [].
Proof.
  apply (GetGroupProperties_unknown_name DbusMenu.__init__
           [9999; DbusMenu.HIDE] ["label"; "shortcut"] "shortcut"
           DbusMenu.reachable_init).
  - apply (bool_decide_unpack _). by vm_compute.
  - apply (bool_decide_unpack _). by vm_compute.
  - apply (bool_decide_unpack _). by vm_compute.
Defined.

(** ** Get and GetAll of the menu *)

Lemma DbusMenu_interfaces self :
  DbusMenu.reachable self →
  DbusMenu._dbus_interfaces self =
    {[ DBUSMENU_IFACE := menu_properties ]}.
Proof.
  intros Hr. by destruct (DbusMenuFacts.reachable_menu_when self Hr) as [v ->].
Qed.

(** X10. [Get] and [GetAll] of the menu never fail. [Get] answers [None] for
    an interface other than com.canonical.dbusmenu and for a name other
    than Status, TextDirection and Version; [GetAll] answers with these
    three properties for every interface name. *)
Theorem DbusMenu_Get_GetAll
    (self : DbusMenu.t) (interface_name property_name : string) :
  DbusMenu.reachable self →
  (interface_name ≠ DBUSMENU_IFACE ∨
   property_name ∉ ["Status"; "TextDirection"; "Version"] →
   DbusMenu.Get interface_name property_name self =
     Outcome (Ok None) self []) ∧
  DbusMenu.Get DBUSMENU_IFACE "Status" self =
    Outcome (Ok (Some (VStr "normal"))) self [] ∧
  DbusMenu.Get DBUSMENU_IFACE "TextDirection" self =
    Outcome (Ok (Some (VStr "ltr"))) self [] ∧
  DbusMenu.Get DBUSMENU_IFACE "Version" self =
    Outcome (Ok (Some (VInt 4))) self [] ∧
  DbusMenu.GetAll interface_name self =
    Outcome (Ok menu_properties) self [].
Proof.
  intros Hr. pose proof (DbusMenu_interfaces self Hr) as Hi.
  unfold DbusMenu.Get, DbusMenu.GetAll, reading, getitem. rewrite Hi.
  split_and!; try by rewrite lookup_singleton_eq.
  - intros [Hne|Hname].
    + by rewrite lookup_singleton_ne.
    + destruct (decide (interface_name = DBUSMENU_IFACE)) as [->|Hne];
        [|by rewrite lookup_singleton_ne].
      rewrite lookup_singleton_eq. simpl. do 2 f_equal.
      apply not_elem_of_dom.
      replace (dom menu_properties)
        with (list_to_set (C:=gset string)
                ["Status"; "TextDirection"; "Version"]) by reflexivity.
      by rewrite elem_of_list_to_set.
  - rewrite lookup_singleton_eq. simpl.
    destruct (decide (interface_name = DBUSMENU_IFACE)) as [->|Hne].
    + by rewrite lookup_singleton_eq.
    + by rewrite lookup_singleton_ne.
Qed.

Lemma DbusMenu_Get_GetAll_witness :
  DbusMenu.Get DBUSMENU_IFACE "IconThemePath" DbusMenu.__init__ =
    Outcome (Ok None) DbusMenu.__init__ [].
Proof.
  apply (proj1 (DbusMenu_Get_GetAll DbusMenu.__init__ DBUSMENU_IFACE
                  "IconThemePath" DbusMenu.reachable_init)).
  right. apply (bool_decide_unpack _). by vm_compute.
Defined.

(** ** The item *)

(** X11. The table [Get] reads is the one [__init__] wrote: whatever the
    status and the icon of the item have become, [Get] answers Passive
    for Status and tomate-idle for IconName. *)
Theorem StatusNotifierItem_Get_is_a_snapshot (self : StatusNotifierItem.t) :
  StatusNotifierItem.reachable self →
  StatusNotifierItem.Get STATUS_NOTIFIER_ITEM_IFACE "Status" self =
    Outcome (Ok (Some (VStr StatusNotifierItemStatus.Passive))) self [] ∧
  StatusNotifierItem.Get STATUS_NOTIFIER_ITEM_IFACE "IconName" self =
    Outcome (Ok (Some (VStr "tomate-idle"))) self [].
Proof.
  intros Hr. pose proof (StatusNotifierItem_interfaces self Hr) as Hi.
  unfold StatusNotifierItem.Get, reading. rewrite Hi.
  by rewrite lookup_singleton_eq.
Qed.

Lemma StatusNotifierItem_Get_is_a_snapshot_witness :
  let self :=
    final (StatusNotifierItem.invoke
             (StatusNotifierItem.m_change_status "Active")
             StatusNotifierItem.__init__) in
  StatusNotifierItem.status self = "Active" ∧
  returned (StatusNotifierItem.Get STATUS_NOTIFIER_ITEM_IFACE "Status" self) =
    Ok (Some (VStr "Passive")).
Proof.
  split; [reflexivity|].
  exact (f_equal returned
           (proj1 (StatusNotifierItem_Get_is_a_snapshot _
                     (StatusNotifierItem.reachable_invoke _
                        (StatusNotifierItem.m_change_status "Active")
                        StatusNotifierItem.reachable_init)))).
Defined.

(** ** The plugin *)

(** X12. A plugin that is not activated ignores the events: nothing is
    changed, nothing is emitted, nothing is raised. *)
Theorem inactive_plugin_ignores_events
    (self : StatusNotifierItemPlugin.t) (elapsed_percent : float) :
  StatusNotifierItemPlugin.is_activated self = false →
  StatusNotifierItemPlugin.on_session_start self = Outcome (Ok tt) self [] ∧
  StatusNotifierItemPlugin.on_session_stop self = Outcome (Ok tt) self [] ∧
  StatusNotifierItemPlugin.on_timer_update elapsed_percent self =
    Outcome (Ok tt) self [] ∧
  StatusNotifierItemPlugin.on_window_show self = Outcome (Ok tt) self [] ∧
  StatusNotifierItemPlugin.on_window_hide self = Outcome (Ok tt) self [].
Proof.
  destruct self as [a item menu]. simpl. intros ->.
  unfold StatusNotifierItemPlugin.on_session_start,
    StatusNotifierItemPlugin.on_session_stop,
    StatusNotifierItemPlugin.on_timer_update,
    StatusNotifierItemPlugin.on_window_show,
    StatusNotifierItemPlugin.on_window_hide,
    StatusNotifierItemPlugin.change_status,
    StatusNotifierItemPlugin.change_icon,
    StatusNotifierItemPlugin.change_visibility,
    suppress_errors, mbind, M_bind, bind.
  by simpl.
Qed.

Lemma inactive_plugin_ignores_events_witness :
  StatusNotifierItemPlugin.on_session_start StatusNotifierItemPlugin.configure
    = Outcome (Ok tt) StatusNotifierItemPlugin.configure [].
Proof.
  exact (proj1 (inactive_plugin_ignores_events
                  StatusNotifierItemPlugin.configure 0%float eq_refl)).
Defined.

Module PluginFacts.
Import StatusNotifierItemPlugin.

Lemma item_change_status_reachable item s :
  StatusNotifierItem.reachable item →
  StatusNotifierItem.reachable
    (final (StatusNotifierItem.change_status s item)).
Proof.
  intros Hr.
  exact (StatusNotifierItem.reachable_invoke _
           (StatusNotifierItem.m_change_status s) Hr).
Qed.

Lemma item_change_icon_reachable item n :
  StatusNotifierItem.reachable item →
  StatusNotifierItem.reachable
    (final (StatusNotifierItem.change_icon n item)).
Proof.
  intros Hr.
  exact (StatusNotifierItem.reachable_invoke _
           (StatusNotifierItem.m_change_icon n) Hr).
Qed.

Lemma menu_update_reachable menu v :
  DbusMenu.reachable menu →
  DbusMenu.reachable (final (DbusMenu.update_menu v menu)).
Proof.
  intros Hr.
  exact (DbusMenu.reachable_invoke _ (DbusMenu.m_update_menu v) Hr).
Qed.

Lemma item_change_icon_status item n :
  StatusNotifierItem.status (final (StatusNotifierItem.change_icon n item)) =
    StatusNotifierItem.status item.
Proof.
  destruct (decide (StatusNotifierItem.icon_name item = n)) as [Hn|Hn].
  - by rewrite StatusNotifierItemFacts.change_icon_same.
  - by rewrite StatusNotifierItemFacts.change_icon_other.
Qed.

(** The final state of the three guarded calls. *)
Lemma change_status_final s self :
  final (change_status s self) =
    Build (is_activated self)
      (if is_activated self
       then final (StatusNotifierItem.change_status s (status_item self))
       else status_item self)
      (dbus_menu self).
Proof. destruct self as [[] item menu]; reflexivity. Qed.

Lemma change_icon_final n self :
  final (change_icon n self) =
    Build (is_activated self)
      (if is_activated self
       then final (StatusNotifierItem.change_icon n (status_item self))
       else status_item self)
      (dbus_menu self).
Proof. destruct self as [[] item menu]; reflexivity. Qed.

Lemma change_visibility_final v self :
  final (change_visibility v self) =
    Build (is_activated self) (status_item self)
      (if is_activated self
       then final (DbusMenu.update_menu v (dbus_menu self))
       else dbus_menu self).
Proof. destruct self as [[] item menu]; reflexivity. Qed.

Lemma bind_final {St A B} (m : M St A) (k : A → M St B) self :
  final ((m ≫= k) self) =
    match returned (m self) with
    | Ok a => final (k a (final (m self)))
    | Raise _ => final (m self)
    end.
Proof. unfold mbind, M_bind, bind. by destruct (returned (m self)). Qed.

Lemma change_status_returned s self : returned (change_status s self) = Ok tt.
Proof.
  destruct self as [[] item menu]; [|done].
  unfold change_status, on_status_item. simpl.
  destruct (decide (StatusNotifierItem.status item = s)) as [Hs|Hs].
  - by rewrite StatusNotifierItemFacts.change_status_same.
  - by rewrite StatusNotifierItemFacts.change_status_other.
Qed.

Local Ltac prj :=
  unfold invariant;
  cbn [is_activated status_item dbus_menu final returned emitted].

Lemma invariant_invoke c self :
  allowed c → invariant self → invariant (final (invoke c self)).
Proof.
  intros Hc (Hstatus & Hinactive & Hitem & Hmenu).
  destruct c; unfold invoke.
  - (* activate *)
    unfold activate. rewrite suppress_errors_final, bind_final.
    unfold set_is_activated, modify. prj.
    destruct session_is_running.
    + rewrite change_status_final. prj.
      rewrite StatusNotifierItemFacts.change_status_sets.
      split_and!; [by right|done|by apply item_change_status_reachable|done].
    + unfold mret, M_ret, ret. prj. split_and!; [done|done|done|done].
  - (* deactivate *)
    unfold deactivate. rewrite suppress_errors_final, bind_final.
    rewrite change_status_returned.
    unfold set_is_activated, modify. prj.
    rewrite change_status_final. prj.
    destruct (is_activated self) eqn:Ha.
    + rewrite StatusNotifierItemFacts.change_status_sets.
      split_and!; [by left|done|by apply item_change_status_reachable|done].
    + split_and!; [done|by intros _; apply Hinactive|done|done].
  - (* on_session_start *)
    unfold on_session_start. rewrite suppress_errors_final, bind_final.
    rewrite change_status_returned.
    rewrite change_visibility_final, !change_status_final. prj.
    destruct (is_activated self) eqn:Ha.
    + rewrite StatusNotifierItemFacts.change_status_sets.
      split_and!; [by right|done|by apply item_change_status_reachable|
                   by apply menu_update_reachable].
    + split_and!; [done|by intros _; apply Hinactive|done|done].
  - (* on_session_stop *)
    unfold on_session_stop. rewrite suppress_errors_final.
    rewrite change_status_final. prj.
    destruct (is_activated self) eqn:Ha.
    + rewrite StatusNotifierItemFacts.change_status_sets.
      split_and!; [by left|done|by apply item_change_status_reachable|done].
    + split_and!; [done|by intros _; apply Hinactive|done|done].
  - (* on_timer_update *)
    unfold on_timer_update. rewrite suppress_errors_final.
    rewrite change_icon_final. prj.
    destruct (is_activated self) eqn:Ha.
    + rewrite item_change_icon_status.
      split_and!; [done|done|by apply item_change_icon_reachable|done].
    + split_and!; [done|by intros _; apply Hinactive|done|done].
  - (* on_window_show *)
    unfold on_window_show. rewrite change_visibility_final. prj.
    destruct (is_activated self) eqn:Ha.
    + split_and!; [done|done|done|by apply menu_update_reachable].
    + split_and!; [done|by intros _; apply Hinactive|done|done].
  - (* on_window_hide *)
    unfold on_window_hide. rewrite change_visibility_final. prj.
    destruct (is_activated self) eqn:Ha.
    + split_and!; [done|done|done|by apply menu_update_reachable].
    + split_and!; [done|by intros _; apply Hinactive|done|done].
  - (* a bus call on the item *)
    simpl in Hc. unfold on_status_item. prj.
    assert (final (StatusNotifierItem.invoke c (status_item self)) =
              status_item self) as Hsame.
    { destruct c; try done; apply (proj1 (reading_then_ret _ _)). }
    rewrite Hsame. by split_and!.
  - (* a bus call on the menu *)
    unfold on_dbus_menu. prj.
    split_and!; [done|done|done|].
    by apply DbusMenu.reachable_invoke.
Qed.

Lemma reachable_invariant self : reachable self → invariant self.
Proof.
  induction 1 as [|self c Hc _ IH].
  - split_and!; [by left|done|constructor|constructor].
  - by apply invariant_invoke.
Qed.

End PluginFacts.

(** X13. Whatever the application and the bus call on a configured plugin,
    in any order: the status of the item is Passive or Active, it is
    Passive whenever the plugin is not activated, and the item and the
    menu are in states their own methods lead to. *)
Theorem plugin_invariant (self : StatusNotifierItemPlugin.t) :
  StatusNotifierItemPlugin.reachable self →
  (StatusNotifierItem.status (StatusNotifierItemPlugin.status_item self) =
     StatusNotifierItemStatus.Passive ∨
   StatusNotifierItem.status (StatusNotifierItemPlugin.status_item self) =
     StatusNotifierItemStatus.Active) ∧
  (StatusNotifierItemPlugin.is_activated self = false →
   StatusNotifierItem.status (StatusNotifierItemPlugin.status_item self) =
     StatusNotifierItemStatus.Passive) ∧
  StatusNotifierItem.reachable (StatusNotifierItemPlugin.status_item self) ∧
  DbusMenu.reachable (StatusNotifierItemPlugin.dbus_menu self).
Proof. apply PluginFacts.reachable_invariant. Qed.

Lemma plugin_invariant_witness :
  let self :=
    final (StatusNotifierItemPlugin.invoke
             StatusNotifierItemPlugin.m_deactivate
             (final (StatusNotifierItemPlugin.invoke
                       (StatusNotifierItemPlugin.m_activate true)
                       StatusNotifierItemPlugin.configure))) in
  StatusNotifierItemPlugin.is_activated self = false ∧
  StatusNotifierItem.status (StatusNotifierItemPlugin.status_item self) =
    StatusNotifierItemStatus.Passive.
Proof.
  split; [reflexivity|].
  apply (proj1 (proj2 (plugin_invariant _
    (StatusNotifierItemPlugin.reachable_invoke _
       StatusNotifierItemPlugin.m_deactivate I
       (StatusNotifierItemPlugin.reachable_invoke _
          (StatusNotifierItemPlugin.m_activate true) I
          StatusNotifierItemPlugin.reachable_configure))))).
  reflexivity.
Defined.

(** X14. On an activated plugin a tick of the timer sets the icon to the
    name of its percentage and emits one signal for IconName when the
    name differs from the one the item has, none otherwise; the status
    is left alone. So of two ticks in a row the second emits a signal
    only when its name is another one. *)
Theorem on_timer_update_notifies_on_change
    (self : StatusNotifierItemPlugin.t) (first second : float) :
  StatusNotifierItemPlugin.is_activated self = true →
  let name := StatusNotifierItemPlugin.icon_name in
  let r := StatusNotifierItemPlugin.on_timer_update first self in
  returned r = Ok tt ∧
  StatusNotifierItem.icon_name
    (StatusNotifierItemPlugin.status_item (final r)) = name first ∧
  StatusNotifierItem.status
    (StatusNotifierItemPlugin.status_item (final r)) =
    StatusNotifierItem.status (StatusNotifierItemPlugin.status_item self) ∧
  emitted r =
    (if bool_decide
          (StatusNotifierItem.icon_name
             (StatusNotifierItemPlugin.status_item self) = name first)
     then [] else [StatusNotifierItem.icon_changed (name first)]) ∧
  emitted (StatusNotifierItemPlugin.on_timer_update second (final r)) =
    (if bool_decide (name first = name second)
     then [] else [StatusNotifierItem.icon_changed (name second)]).
Proof.
  destruct self as [a [c s i d] menu]. simpl. intros ->.
  unfold StatusNotifierItemPlugin.on_timer_update,
    StatusNotifierItemPlugin.change_icon,
    StatusNotifierItemPlugin.on_status_item, suppress_errors.
  cbn [StatusNotifierItemPlugin.is_activated
       StatusNotifierItemPlugin.status_item].
  generalize (StatusNotifierItemPlugin.icon_name first) as n1.
  generalize (StatusNotifierItemPlugin.icon_name second) as n2.
  intros n2 n1.
  destruct (decide (i = n1)) as [->|Hne].
  - rewrite StatusNotifierItemFacts.change_icon_same by done. simpl.
    rewrite bool_decide_eq_true_2 by done.
    split_and!; [done..|].
    destruct (decide (n1 = n2)) as [->|Hne2].
    + rewrite StatusNotifierItemFacts.change_icon_same by done.
      by rewrite bool_decide_eq_true_2.
    + rewrite StatusNotifierItemFacts.change_icon_other by done.
      by rewrite bool_decide_eq_false_2.
  - rewrite StatusNotifierItemFacts.change_icon_other by done. simpl.
    rewrite bool_decide_eq_false_2 by done.
    split_and!; [done..|].
    destruct (decide (n1 = n2)) as [->|Hne2].
    + rewrite StatusNotifierItemFacts.change_icon_same by done.
      by rewrite bool_decide_eq_true_2.
    + rewrite StatusNotifierItemFacts.change_icon_other by done.
      by rewrite bool_decide_eq_false_2.
Qed.

Lemma on_timer_update_notifies_on_change_witness :
  let activated :=
    final (StatusNotifierItemPlugin.activate false
             StatusNotifierItemPlugin.configure) in
  emitted (StatusNotifierItemPlugin.on_timer_update 5%float activated) =
    [StatusNotifierItem.icon_changed "tomate-05"] ∧
  emitted (StatusNotifierItemPlugin.on_timer_update 5%float
             (final (StatusNotifierItemPlugin.on_timer_update 5%float
                       activated))) = [].
Proof.
  pose proof (on_timer_update_notifies_on_change
                (final (StatusNotifierItemPlugin.activate false
                          StatusNotifierItemPlugin.configure))
                5%float 5%float eq_refl) as (_ & _ & _ & Hfirst & Hsecond).
  split; [exact Hfirst|exact Hsecond].
Defined.

Module PluginRuns.
Import StatusNotifierItemPlugin.

Lemma bind_emitted {St A B} (m : M St A) (k : A → M St B) self :
  emitted ((m ≫= k) self) =
    match returned (m self) with
    | Ok a => (emitted (m self) ++ emitted (k a (final (m self))))%list
    | Raise _ => emitted (m self)
    end.
Proof. unfold mbind, M_bind, bind. by destruct (returned (m self)). Qed.

Lemma item_change_status_emitted s item :
  emitted (StatusNotifierItem.change_status s item) =
    if bool_decide (StatusNotifierItem.status item = s) then []
    else [StatusNotifierItem.status_changed s].
Proof.
  case_bool_decide as Hs.
  - by rewrite StatusNotifierItemFacts.change_status_same.
  - by rewrite StatusNotifierItemFacts.change_status_other.
Qed.

Lemma change_status_emitted s self :
  emitted (change_status s self) =
    if is_activated self
    then emitted (StatusNotifierItem.change_status s (status_item self))
    else [].
Proof. destruct self as [[] item menu]; reflexivity. Qed.

Lemma activate_final running self :
  final (activate running self) =
    Build true
      (if running
       then final (StatusNotifierItem.change_status
                     StatusNotifierItemStatus.Active (status_item self))
       else status_item self)
      (dbus_menu self).
Proof.
  unfold activate. rewrite suppress_errors_final, PluginFacts.bind_final.
  unfold set_is_activated, modify. cbn [returned final].
  destruct running; [|done].
  by rewrite PluginFacts.change_status_final.
Qed.

Lemma activate_emitted running self :
  emitted (activate running self) =
    if running
    then emitted (StatusNotifierItem.change_status
                    StatusNotifierItemStatus.Active (status_item self))
    else [].
Proof.
  unfold activate. rewrite suppress_errors_emitted, bind_emitted.
  unfold set_is_activated, modify. cbn [returned final emitted app].
  destruct running; [|done].
  by rewrite change_status_emitted.
Qed.

Lemma deactivate_final self :
  final (deactivate self) =
    Build false
      (if is_activated self
       then final (StatusNotifierItem.change_status
                     StatusNotifierItemStatus.Passive (status_item self))
       else status_item self)
      (dbus_menu self).
Proof.
  unfold deactivate. rewrite suppress_errors_final, PluginFacts.bind_final.
  rewrite PluginFacts.change_status_returned.
  unfold set_is_activated, modify. cbn [final].
  by rewrite PluginFacts.change_status_final.
Qed.

Lemma deactivate_emitted self :
  emitted (deactivate self) =
    if is_activated self
    then emitted (StatusNotifierItem.change_status
                    StatusNotifierItemStatus.Passive (status_item self))
    else [].
Proof.
  unfold deactivate. rewrite suppress_errors_emitted, bind_emitted.
  rewrite PluginFacts.change_status_returned.
  unfold set_is_activated, modify. cbn [emitted].
  rewrite app_nil_r. apply change_status_emitted.
Qed.

(** Active then Passive on a Passive item gives the item back. *)
Lemma item_there_and_back item :
  StatusNotifierItem.status item = StatusNotifierItemStatus.Passive →
  final (StatusNotifierItem.change_status StatusNotifierItemStatus.Passive
           (final (StatusNotifierItem.change_status
                     StatusNotifierItemStatus.Active item))) = item.
Proof.
  destruct item as [c s i d]. cbn [StatusNotifierItem.status]. intros ->.
  rewrite StatusNotifierItemFacts.change_status_other by discriminate.
  cbn [final StatusNotifierItem.category StatusNotifierItem.icon_name
       StatusNotifierItem._dbus_interfaces].
  by rewrite StatusNotifierItemFacts.change_status_other by discriminate.
Qed.

Lemma activate_returned running self :
  returned (activate running self) = Ok tt.
Proof. apply suppress_errors_returned. Qed.

Lemma deactivate_returned self : returned (deactivate self) = Ok tt.
Proof. apply suppress_errors_returned. Qed.

End PluginRuns.

(** X15. [activate] leaves the plugin activated, with the status Active when
    a session is running and as it was otherwise; [deactivate] leaves it
    not activated, and on an activated plugin with the status Passive.
    Each emits one signal for Status when it changes the status and none
    otherwise. On a plugin that is not activated and Passive, [activate]
    followed by [deactivate] gives back the plugin as it was. *)
Theorem activate_deactivate
    (self : StatusNotifierItemPlugin.t) (session_is_running : bool) :
  let item := StatusNotifierItemPlugin.status_item in
  let on := StatusNotifierItemPlugin.activate session_is_running self in
  let off := StatusNotifierItemPlugin.deactivate self in
  (returned on = Ok tt ∧
   StatusNotifierItemPlugin.is_activated (final on) = true ∧
   StatusNotifierItem.status (item (final on)) =
     (if session_is_running then StatusNotifierItemStatus.Active
      else StatusNotifierItem.status (item self)) ∧
   emitted on =
     (if session_is_running &&
         negb (bool_decide (StatusNotifierItem.status (item self) =
                              StatusNotifierItemStatus.Active))
      then [StatusNotifierItem.status_changed StatusNotifierItemStatus.Active]
      else [])) ∧
  (returned off = Ok tt ∧
   StatusNotifierItemPlugin.is_activated (final off) = false ∧
   (StatusNotifierItemPlugin.is_activated self = true →
    StatusNotifierItem.status (item (final off)) =
      StatusNotifierItemStatus.Passive ∧
    emitted off =
      (if bool_decide (StatusNotifierItem.status (item self) =
                         StatusNotifierItemStatus.Passive)
       then []
       else [StatusNotifierItem.status_changed
               StatusNotifierItemStatus.Passive])) ∧
   (StatusNotifierItemPlugin.is_activated self = false →
    item (final off) = item self ∧ emitted off = [])) ∧
  (StatusNotifierItemPlugin.is_activated self = false →
   StatusNotifierItem.status (item self) = StatusNotifierItemStatus.Passive →
   final (StatusNotifierItemPlugin.deactivate (final on)) = self).
Proof.
  intros item on off. subst item on off.
  rewrite PluginRuns.activate_final, PluginRuns.activate_emitted,
    !PluginRuns.deactivate_final, PluginRuns.deactivate_emitted.
  rewrite PluginRuns.activate_returned, PluginRuns.deactivate_returned.
  cbn [StatusNotifierItemPlugin.is_activated
       StatusNotifierItemPlugin.status_item
       StatusNotifierItemPlugin.dbus_menu].
  rewrite !PluginRuns.item_change_status_emitted.
  split_and!; try done.
  - destruct session_is_running; [|done].
    apply StatusNotifierItemFacts.change_status_sets.
  - destruct session_is_running; [|done]. simpl. by case_bool_decide.
  - intros ->. split; [|done].
    apply StatusNotifierItemFacts.change_status_sets.
  - by intros ->.
  - destruct self as [a item menu].
    cbn [StatusNotifierItemPlugin.is_activated
         StatusNotifierItemPlugin.status_item
         StatusNotifierItemPlugin.dbus_menu].
    intros -> Hpassive. f_equal.
    destruct session_is_running.
    + by apply PluginRuns.item_there_and_back.
    + by rewrite StatusNotifierItemFacts.change_status_same.
Qed.

Lemma activate_deactivate_witness :
  final (StatusNotifierItemPlugin.deactivate
           (final (StatusNotifierItemPlugin.activate true
                     StatusNotifierItemPlugin.configure))) =
    StatusNotifierItemPlugin.configure.
Proof.
  exact (proj2 (proj2 (activate_deactivate
                         StatusNotifierItemPlugin.configure true))
           eq_refl eq_refl).
Defined.

(** ** The name of the icon, on any float *)

Lemma pretty_N_go_length (x : N) (s : string) :
  (String.length s ≤ String.length (pretty_N_go x s))%nat.
Proof.
  revert s. induction (N.lt_wf_0 x) as [x _ IH]; intros s.
  assert (x = 0 ∨ 0 < x)%N as [->|Hx] by lia; [by rewrite pretty_N_go_0|].
  rewrite pretty_N_go_step by done.
  etrans; [|apply IH; by apply N.div_lt]. simpl. lia.
Qed.

(** A whole number that is not negative is written on one character at
    least, and on two at least from 10 on. *)
Lemma pretty_Z_length (n : Z) :
  (0 ≤ n)%Z →
  (1 ≤ String.length (pretty n))%nat ∧
  ((10 ≤ n)%Z → (2 ≤ String.length (pretty n))%nat).
Proof.
  destruct n as [|p|p]; [intros _|intros _|lia].
  { split; [by vm_compute|lia]. }
  change (pretty (Z.pos p)) with (pretty (N.pos p)).
  unfold pretty, pretty_N. rewrite decide_False by done.
  rewrite pretty_N_go_step by lia. split.
  - etrans; [|apply pretty_N_go_length]. simpl. lia.
  - intros Hp.
    assert (0 < N.pos p `div` 10)%N as Hdiv.
    { apply N.div_str_pos. lia. }
    rewrite pretty_N_go_step by done.
    etrans; [|apply pretty_N_go_length]. simpl. lia.
Qed.

Lemma zero_fill_no_sign (n : Z) :
  (0 ≤ n)%Z → zero_fill 2 "" (pretty n) = two_digits n.
Proof.
  intros Hn. destruct (decide (n ≤ 100)%Z) as [Hsmall|Hlarge].
  { by apply zero_fill_two_digits. }
  destruct (pretty_Z_length n Hn) as [_ Htwo].
  unfold zero_fill, two_digits. rewrite bool_decide_eq_false_2 by lia.
  replace (2 - String.length "" - String.length (pretty n))%nat with 0%nat
    by (cbn [String.length]; lia).
  reflexivity.
Qed.

Lemma zero_fill_minus (n : Z) :
  (0 ≤ n)%Z → zero_fill 2 "-" (pretty n) = "-" +:+ pretty n.
Proof.
  intros Hn. destruct (pretty_Z_length n Hn) as [Hone _].
  unfold zero_fill.
  replace (2 - String.length "-" - String.length (pretty n))%nat with 0%nat
    by (cbn [String.length]; lia).
  reflexivity.
Qed.

(** X17. For every float that is a number other than zero, whatever its
    size: the name of the icon is "tomate-" followed, for a positive
    number, by a whole number at most half a unit away from it, the even
    one when two are as near, written on two digits below 10 and as it
    is from 10 on; for a negative number, by a minus sign and such a
    whole number for its absolute value, with no zero added. Nothing is
    clamped: 1234.5 gives "tomate-1234", -2.5 gives "tomate--2" and
    -12.3 gives "tomate--12". *)
Theorem icon_name_nearest_even :
  (∀ (percent : float) (q : Q),
     float_value percent = Some q →
     ¬ (q == 0)%Q →
     ∃ n : Z,
       (0 ≤ n)%Z ∧
       (Qabs (Qabs q - inject_Z n) <= 1 # 2)%Q ∧
       ((Qabs (Qabs q - inject_Z n) == 1 # 2)%Q → Z.even n = true) ∧
       StatusNotifierItemPlugin.icon_name percent =
         "tomate-" +:+
           (if Qlt_le_dec q 0 then "-" +:+ pretty n else two_digits n)) ∧
  StatusNotifierItemPlugin.icon_name 1234.5%float = "tomate-1234" ∧
  StatusNotifierItemPlugin.icon_name 7.5%float = "tomate-08" ∧
  StatusNotifierItemPlugin.icon_name (-2.5)%float = "tomate--2" ∧
  StatusNotifierItemPlugin.icon_name (-0x1.899999999999ap+3)%float =
    "tomate--12".
Proof.
  split; [|by split_and!].
  intros percent q.
  unfold float_value, StatusNotifierItemPlugin.icon_name, format_02_0f.
  destruct (Prim2SF percent) as [[]| | |s m e]; try done.
  - intros [= <-] []. reflexivity.
  - intros [= <-] []. reflexivity.
  - intros [= <-] _. exists (round_half_even m e).
    assert (0 < 2 ^ (- e) ∨ 0 ≤ e)%Z as Hd.
    { destruct (decide (0 ≤ e)%Z); [by right|left].
      apply Z.pow_pos_nonneg; lia. }
    set (magnitude :=
           if bool_decide (0 ≤ e)%Z then inject_Z (Z.pos m * 2 ^ e)
           else Z.pos m # Z.to_pos (2 ^ (- e))).
    assert (0 < magnitude)%Q as Hpos.
    { subst magnitude. case_bool_decide; unfold Qlt; simpl; [|lia].
      assert (0 < 2 ^ e)%Z by (apply Z.pow_pos_nonneg; lia). lia. }
    assert (Qabs (if s then (- magnitude)%Q else magnitude) == magnitude)%Q
      as Habs.
    { destruct s.
      - rewrite Qabs_opp. apply Qabs_pos. by apply Qlt_le_weak.
      - apply Qabs_pos. by apply Qlt_le_weak. }
    assert (0 ≤ round_half_even m e)%Z as Hn0.
    { destruct (decide (0 ≤ e)%Z) as [He|He].
      - unfold round_half_even. rewrite bool_decide_eq_true_2 by done.
        assert (0 < 2 ^ e)%Z by (apply Z.pow_pos_nonneg; lia). nia.
      - assert (e < 0)%Z as Hneg by lia.
        by destruct (round_half_even_nearest m e Hneg) as (_ & ? & _). }
    assert ((if Qlt_le_dec (if s then - magnitude else magnitude)%Q 0
             then "-" +:+ pretty (round_half_even m e)
             else two_digits (round_half_even m e)) =
            zero_fill 2 (sign_of s) (pretty (round_half_even m e))) as ->.
    { destruct s; simpl; destruct (Qlt_le_dec _ 0) as [Hlt|Hle].
      - by rewrite zero_fill_minus.
      - exfalso. apply (Qopp_lt_compat 0 magnitude) in Hpos.
        by apply (Qle_not_lt _ _ Hle).
      - exfalso. apply (Qlt_irrefl 0). exact (Qlt_trans _ _ _ Hpos Hlt).
      - by rewrite zero_fill_no_sign. }
    setoid_rewrite Habs. subst magnitude. clear Habs Hpos.
    case_bool_decide as He.
    + unfold round_half_even. rewrite bool_decide_eq_true_2 by done.
      assert (0 < 2 ^ e)%Z by (apply Z.pow_pos_nonneg; lia).
      split_and!; [nia| | |done].
      * apply Qabs_Qle_condition. unfold Qle, Qminus, Qplus, Qopp. simpl. lia.
      * unfold Qeq, Qabs, Qminus, Qplus, Qopp. simpl. lia.
    + assert (e < 0)%Z as Hneg by lia.
      destruct (round_half_even_nearest m e Hneg) as (Hdpos & Hn & Hnear).
      pose proof (round_half_even_tie m e Hneg) as Htie.
      set (n := round_half_even m e) in *. set (d := (2 ^ (- e))%Z) in *.
      split_and!; [done| | |done].
      * apply Qabs_Qle_condition. unfold Qle, Qminus, Qplus, Qopp. simpl.
        rewrite Z2Pos.id by done. fold d. lia.
      * unfold Qeq, Qabs, Qminus, Qplus, Qopp. simpl.
        rewrite Z2Pos.id by done. fold d. intros Heq. apply Htie. lia.
Qed.

Lemma icon_name_nearest_even_witness :
  ∃ n : Z,
    (0 ≤ n)%Z ∧
    (Qabs (Qabs (- (5629499534213120 # 2251799813685248)) - inject_Z n)
       <= 1 # 2)%Q ∧
    ((Qabs (Qabs (- (5629499534213120 # 2251799813685248)) - inject_Z n)
        == 1 # 2)%Q → Z.even n = true) ∧
    StatusNotifierItemPlugin.icon_name (-2.5)%float =
      "tomate-" +:+
        (if Qlt_le_dec (- (5629499534213120 # 2251799813685248)) 0
         then "-" +:+ pretty n else two_digits n).
Proof.
  apply (proj1 icon_name_nearest_even (-2.5)%float
           (- (5629499534213120 # 2251799813685248))%Q).
  - reflexivity.
  - vm_compute. discriminate.
Defined.

(** ** The name on the bus *)

Lemma string_length_app (s1 s2 : string) :
  String.length (s1 +:+ s2) = (String.length s1 + String.length s2)%nat.
Proof. induction s1 as [|a s1 IH]; simpl; [done|]. by rewrite IH. Qed.

Lemma string_app_inv_tail (s x y : string) : x +:+ s = y +:+ s → x = y.
Proof.
  revert y. induction x as [|a x IH]; intros [|b y] Heq.
  - done.
  - apply (f_equal String.length) in Heq.
    rewrite !string_length_app in Heq. cbn [String.length] in Heq. lia.
  - apply (f_equal String.length) in Heq.
    rewrite !string_length_app in Heq. cbn [String.length] in Heq. lia.
  - change (String a (x +:+ s) = String b (y +:+ s)) in Heq.
    injection Heq as -> Heq. f_equal. by apply IH.
Qed.

(** X18. The path of a process is "org.kde.StatusNotifierItem-", its
    pid in decimal and "-1", as for the pid 4242; two processes never get
    the same one: the path is another one for another pid. *)
Theorem object_path_inj (pid1 pid2 : N) :
  StatusNotifierItem.object_path pid1 =
    "org.kde.StatusNotifierItem-" +:+ pretty pid1 +:+ "-1" ∧
  StatusNotifierItem.object_path 4242 = "org.kde.StatusNotifierItem-4242-1" ∧
  StatusNotifierItem.object_path 7 = "org.kde.StatusNotifierItem-7-1" ∧
  (pid1 ≠ pid2 →
   StatusNotifierItem.object_path pid1 ≠ StatusNotifierItem.object_path pid2).
Proof.
  split_and!; [reflexivity..|].
  unfold StatusNotifierItem.object_path. intros Hne Heq. apply Hne.
  apply (inj (String.app STATUS_NOTIFIER_ITEM_IFACE)) in Heq.
  apply (inj (String.app "-")) in Heq.
  apply string_app_inv_tail in Heq.
  by apply (inj pretty).
Qed.

Lemma object_path_inj_witness :
  StatusNotifierItem.object_path 4242 ≠ StatusNotifierItem.object_path 4243.
Proof.
  apply (proj2 (proj2 (proj2 (object_path_inj 4242 4243)))). discriminate.
Defined.

(** ** A session that starts twice *)

Lemma change_visibility_emitted v self :
  emitted (StatusNotifierItemPlugin.change_visibility v self) =
    if StatusNotifierItemPlugin.is_activated self
    then emitted (DbusMenu.update_menu v
                    (StatusNotifierItemPlugin.dbus_menu self))
    else [].
Proof. destruct self as [[] item menu]; reflexivity. Qed.

Lemma on_session_start_final self :
  final (StatusNotifierItemPlugin.on_session_start self) =
    StatusNotifierItemPlugin.Build
      (StatusNotifierItemPlugin.is_activated self)
      (if StatusNotifierItemPlugin.is_activated self
       then final (StatusNotifierItem.change_status
                     StatusNotifierItemStatus.Active
                     (StatusNotifierItemPlugin.status_item self))
       else StatusNotifierItemPlugin.status_item self)
      (if StatusNotifierItemPlugin.is_activated self
       then final (DbusMenu.update_menu true
                     (StatusNotifierItemPlugin.dbus_menu self))
       else StatusNotifierItemPlugin.dbus_menu self).
Proof.
  unfold StatusNotifierItemPlugin.on_session_start.
  rewrite suppress_errors_final, PluginFacts.bind_final.
  rewrite PluginFacts.change_status_returned.
  rewrite PluginFacts.change_visibility_final,
    !PluginFacts.change_status_final.
  done.
Qed.

Lemma on_session_start_emitted self :
  emitted (StatusNotifierItemPlugin.on_session_start self) =
    if StatusNotifierItemPlugin.is_activated self
    then (emitted (StatusNotifierItem.change_status
                     StatusNotifierItemStatus.Active
                     (StatusNotifierItemPlugin.status_item self)) ++
          emitted (DbusMenu.update_menu true
                     (StatusNotifierItemPlugin.dbus_menu self)))%list
    else [].
Proof.
  unfold StatusNotifierItemPlugin.on_session_start.
  rewrite suppress_errors_emitted, PluginRuns.bind_emitted.
  rewrite PluginFacts.change_status_returned.
  rewrite PluginRuns.change_status_emitted, change_visibility_emitted.
  rewrite PluginFacts.change_status_final.
  cbn [StatusNotifierItemPlugin.is_activated
       StatusNotifierItemPlugin.dbus_menu].
  by destruct (StatusNotifierItemPlugin.is_activated self).
Qed.

(** X16. On an activated plugin a second start of session in a row leaves
    the plugin as the first left it and emits no signal for Status, but
    it emits the signal of the menu once more. *)
Theorem on_session_start_twice (self : StatusNotifierItemPlugin.t) :
  StatusNotifierItemPlugin.is_activated self = true →
  DbusMenu.reachable (StatusNotifierItemPlugin.dbus_menu self) →
  let r1 := StatusNotifierItemPlugin.on_session_start self in
  let r2 := StatusNotifierItemPlugin.on_session_start (final r1) in
  final r2 = final r1 ∧
  emitted r2 =
    emitted (DbusMenu.update_menu true
               (StatusNotifierItemPlugin.dbus_menu self)) ∧
  List.filter is_status_notification (emitted r2) = [] ∧
  length (emitted r2) = 1%nat.
Proof.
  intros Ha Hmenu r1 r2. subst r1 r2.
  destruct (DbusMenuFacts.reachable_menu_when _ Hmenu) as [v Hv].
  assert (final (DbusMenu.update_menu true
                   (final (DbusMenu.update_menu true
                             (StatusNotifierItemPlugin.dbus_menu self)))) =
          final (DbusMenu.update_menu true
                   (StatusNotifierItemPlugin.dbus_menu self))) as Hfinal.
  { rewrite Hv. by rewrite !DbusMenuFacts.update_menu_final. }
  assert (emitted (DbusMenu.update_menu true
                     (final (DbusMenu.update_menu true
                               (StatusNotifierItemPlugin.dbus_menu self)))) =
          emitted (DbusMenu.update_menu true
                     (StatusNotifierItemPlugin.dbus_menu self))) as Hemitted.
  { rewrite Hv, DbusMenuFacts.update_menu_final. by destruct v. }
  assert (length (emitted (DbusMenu.update_menu true
                             (StatusNotifierItemPlugin.dbus_menu self))) =
          1%nat) as Hone.
  { rewrite Hv. by destruct v. }
  assert (emitted (StatusNotifierItemPlugin.on_session_start
                     (final (StatusNotifierItemPlugin.on_session_start self)))
          = emitted (DbusMenu.update_menu true
                       (StatusNotifierItemPlugin.dbus_menu self))) as Hsecond.
  { rewrite on_session_start_emitted, !on_session_start_final, Ha.
    cbn [StatusNotifierItemPlugin.is_activated
         StatusNotifierItemPlugin.status_item
         StatusNotifierItemPlugin.dbus_menu].
    rewrite StatusNotifierItemFacts.change_status_same
      by apply StatusNotifierItemFacts.change_status_sets.
    by rewrite Hemitted. }
  split_and!.
  - rewrite !on_session_start_final, Ha.
    cbn [StatusNotifierItemPlugin.is_activated
         StatusNotifierItemPlugin.status_item
         StatusNotifierItemPlugin.dbus_menu].
    rewrite Hfinal.
    by rewrite (StatusNotifierItemFacts.change_status_same
                  (final (StatusNotifierItem.change_status _ _)))
      by apply StatusNotifierItemFacts.change_status_sets.
  - exact Hsecond.
  - rewrite Hsecond. apply update_menu_no_status_notification.
  - by rewrite Hsecond.
Qed.

Lemma on_session_start_twice_witness :
  let activated :=
    final (StatusNotifierItemPlugin.activate false
             StatusNotifierItemPlugin.configure) in
  let r1 := StatusNotifierItemPlugin.on_session_start activated in
  let r2 := StatusNotifierItemPlugin.on_session_start (final r1) in
  final r2 = final r1 ∧ length (emitted r2) = 1%nat.
Proof.
  pose proof (on_session_start_twice
                (final (StatusNotifierItemPlugin.activate false
                          StatusNotifierItemPlugin.configure))
                eq_refl DbusMenu.reachable_init) as (Hfinal & _ & _ & Hone).
  split; [exact Hfinal|exact Hone].
Defined.
